(** * Species-distribution modelling pipeline: grid registry, coverage
      extractor and one-class modelling pipeline.

    Shallow embedding of
      - [files_for_wget/raster_standardsV2.py]   (module [RasterStandardsV2]),
      - [classes_for_wget/raster_standars.py]    (module [RasterStandardsLegacy]),
      - [files_for_wget/raster_information_collector.py]
                                                  (module [RasterInformationCollector]),
      - [files_for_wget/one_class_svm_model.py]  (module [OneClassSVM]),
    followed by the properties stated about them.

    Conventions.  IEEE-754 values are [spec_float] with the operations of
    [SpecFloat] at the precision the program uses (binary64 for Python floats
    and coordinates, binary32 for raster cells).  A Python exception is the
    [Raise] branch of [result].  A numpy 1-D array is a [list], a 2-D array a
    list of rows, a 3-D stack a list of 2-D layers.  Numpy, rasterio and
    scikit-learn routines whose numerical details do not matter are fields
    of the class [Numpy] or of the object that owns them. *)

From Stdlib Require Import ZArith Floats.SpecFloat Permutation.
From stdpp Require Import base list strings gmap.

Open Scope Z_scope.

(** ** Floating point *)

Abbreviation float := spec_float.

Record format := { prec : Z; emax : Z }.

Definition binary64 : format := {| prec := 53; emax := 1024 |}.
Definition binary32 : format := {| prec := 24; emax := 128 |}.

(** Every value is kept in its canonical binary64 representation (a
    binary32 value is exactly a double), so that [SFcompare] can compare a
    raster cell with a Python literal the way numpy does after upcasting.
    An operation at format [fmt] rounds at that format's precision. *)
Definition canon (x : float) : float :=
  match x with
  | S754_finite s m e => binary_normalize 53 1024 (cond_Zopp s (Zpos m)) e s
  | _ => x
  end.

Definition of_Z (fmt : format) (z : Z) : float :=
  canon (binary_normalize (prec fmt) (emax fmt) z 0 false).
Definition fadd (fmt : format) (x y : float) : float :=
  canon (SFadd (prec fmt) (emax fmt) x y).
Definition fsub (fmt : format) (x y : float) : float :=
  canon (SFsub (prec fmt) (emax fmt) x y).
Definition fmul (fmt : format) (x y : float) : float :=
  canon (SFmul (prec fmt) (emax fmt) x y).
Definition fdiv (fmt : format) (x y : float) : float :=
  canon (SFdiv (prec fmt) (emax fmt) x y).
Definition fneg : float → float := SFopp.

(** Python's comparison operators on floats ([nan] compares false, so
    [x != y] is the negation of [x == y]). *)
Definition py_eq (x y : float) : bool := SFeqb x y.
Definition py_ne (x y : float) : bool := negb (py_eq x y).
Definition py_lt (x y : float) : bool := SFltb x y.
Definition py_le (x y : float) : bool := SFleb x y.
Definition py_gt (x y : float) : bool := SFltb y x.
Definition py_ge (x y : float) : bool := SFleb y x.

(** [np.isnan] and [np.isfinite]. *)
Definition isnan (x : float) : bool :=
  match x with S754_nan => true | _ => false end.
Definition isfinite (x : float) : bool :=
  match x with S754_nan | S754_infinity _ => false | _ => true end.

(** The literal [-9999.0] (exact in binary32 and binary64). *)
Definition m9999 : float := Eval cbv in of_Z binary64 (-9999).
Definition f0 : float := S754_zero false.
Definition f1 : float := Eval cbv in of_Z binary64 1.

(** Comparison of a value that may be [None] with a float:
    [None != x] is [True]. *)
Definition py_ne_opt (x : option float) (y : float) : bool :=
  match x with Some v => py_ne v y | None => true end.

(** [round(x, ndigits)] of a Python float, for [0 <= ndigits]: the double
    nearest to the decimal obtained by rounding the exact value of [x] to
    [ndigits] places, ties to even. *)
Definition round_half_even (num den : Z) : Z :=
  let q := num / den in
  let r := num mod den in
  match Z.compare (2 * r) den with
  | Lt => q
  | Gt => q + 1
  | Eq => if Z.even q then q else q + 1
  end.

Definition py_round (x : float) (ndigits : Z) : float :=
  match x with
  | S754_finite s m e =>
      if 0 <=? e then x
      else match round_half_even (Zpos m * 10 ^ ndigits) (2 ^ (- e)) with
           | Zpos k => fdiv binary64 (S754_finite s k 0)
                            (S754_finite false (Z.to_pos (10 ^ ndigits)) 0)
           | _ => S754_zero s
           end
  | _ => x
  end.

(** ** Exceptions *)

Inductive fvalue :=
| FFloat (x : float)
| FStr (s : string).

Inductive exn :=
| Exception (msg : string)                   (* raise Exception("...") *)
| ExceptionF (msg : string) (arg : fvalue)    (* raise Exception(f"... {arg}") *)
| BuiltinError (cls : string).                (* raised by the runtime or a library *)

Inductive result (A : Type) :=
| Ok (a : A)
| Raise (e : exn).
Arguments Ok {A} a.
Arguments Raise {A} e.

Definition bind {A B} (m : result A) (k : A → result B) : result B :=
  match m with Ok a => k a | Raise e => Raise e end.

Notation "x <- m ;; k" := (bind m (fun x => k))
  (at level 100, m at next level, right associativity).

(** [if cond: raise e] followed by the rest of the body. *)
Definition raise_if {A} (cond : bool) (e : exn) (rest : result A) : result A :=
  if cond then Raise e else rest.

(** [try: body except Exception: handler]. *)
Definition try_except {A} (body : result A) (handler : exn → result A) : result A :=
  match body with Ok a => Ok a | Raise e => handler e end.

Definition is_ok {A} (r : result A) : bool :=
  match r with Ok _ => true | Raise _ => false end.

Fixpoint mapM {A B} (f : A → result B) (l : list A) : result (list B) :=
  match l with
  | [] => Ok []
  | x :: l' => y <- f x ;; ys <- mapM f l' ;; Ok (y :: ys)
  end.

(** ** Arrays and raster datasets *)

Abbreviation array1 := (list float).
Abbreviation array2 := (list (list float)).
Abbreviation array3 := (list (list (list float))).

(** Shape of a 2-D array given as a list of rows. *)
Definition shape2 {A} (a : list (list A)) : nat * nat :=
  (length a, match a with [] => 0%nat | r :: _ => length r end).

(** Index normalisation of numpy and Python sequences: a negative index
    counts from the end, anything outside [-n, n) is an [IndexError]. *)
Definition np_index (n : nat) (i : Z) : result nat :=
  if (0 <=? i) && (i <? Z.of_nat n) then Ok (Z.to_nat i)
  else if (- Z.of_nat n <=? i) && (i <? 0) then Ok (Z.to_nat (i + Z.of_nat n))
  else Raise (BuiltinError "IndexError").

(** [a[i, j]] on a 2-D array. *)
Definition getitem2 {A} (a : list (list A)) (i j : Z) : result A :=
  r <- np_index (length a) i ;;
  match a !! r with
  | None => Raise (BuiltinError "IndexError")
  | Some row =>
      c <- np_index (length row) j ;;
      match row !! c with
      | None => Raise (BuiltinError "IndexError")
      | Some v => Ok v
      end
  end.

(** The cell at row [r], column [c], when there is one. *)
Definition cell {A} (a : list (list A)) (r c : nat) : option A :=
  a !! r ≫= (λ row, row !! c).

(** All rows have the length of the first. *)
Definition rectangular {A} (a : list (list A)) : Prop :=
  Forall (λ row, length row = (shape2 a).2) a.

(** The six coefficients [transform[0] .. transform[5]] of an affine
    transform. *)
Record affine := {
  aff_a : float; aff_b : float; aff_c : float;
  aff_d : float; aff_e : float; aff_f : float }.

Definition window : Type := (Z * Z) * (Z * Z).

(** An opened rasterio dataset: its metadata and its [read(1, window=...)]
    method. [crs_code] is the value of
    [int(raster.crs.data['init'].split(':')[1])]. *)
Record dataset := {
  meta_transform : affine;
  meta_count : Z;
  meta_dtype : string;
  profile_width : Z;
  profile_height : Z;
  crs_code : result Z;
  nodata : option float;
  read : option window → result array2 }.

(** Numpy routines used through their interface only. *)
Class Numpy := {
  np_arange : float → float → float → array1;
  np_median : array1 → float;
  np_mean : array1 → float }.

(** ** Grid registry, second version ([raster_standardsV2.py]) *)

Module RasterStandardsV2.

(** The dictionary [raster_base_configs] with the keys its docstring lists. *)
Record raster_base_configs := {
  cfg_resolution : float;
  cfg_crs : Z;
  cfg_no_data_val : float;
  cfg_positive_mask_val : float;
  cfg_negative_mask_val : float;
  cfg_country_limits : float * float * float * float }.

Record Raster_Standards := {
  security_limt : Z;
  x_min_limit : float;
  x_max_limit : float;
  y_min_limit : float;
  y_max_limit : float;
  resolution : float;
  crs : Z;
  no_data_val : float;
  positive_mask_val : float;
  negative_mask_val : float;
  reference_raster : dataset;
  xgrid : array1;
  ygrid : array1;
  x_center_point : float;
  y_center_point : float }.

(** [_construct_grids], from the reference raster only. *)
Definition _construct_grids `{Numpy} (reference_raster : dataset) : array1 * array1 :=
  let ref_aff := meta_transform reference_raster in
  let ref_width := of_Z binary64 (profile_width reference_raster) in
  let ref_heigh := of_Z binary64 (profile_height reference_raster) in
  let x_min_limit := aff_c ref_aff in
  let x_max_limit := fadd binary64 x_min_limit (fmul binary64 (aff_a ref_aff) ref_width) in
  let y_max_limit := aff_f ref_aff in
  let y_min_limit := fadd binary64 y_max_limit (fmul binary64 (aff_e ref_aff) ref_heigh) in
  (np_arange x_min_limit x_max_limit (aff_a ref_aff),
   np_arange y_min_limit y_max_limit (aff_a ref_aff)).

(** [__init__]; [opened] is the outcome of [rasterio.open] on the
    reference raster's fixed path. *)
Definition __init__ `{Numpy} (cfg : raster_base_configs) (opened : result dataset)
  : result Raster_Standards :=
  let security_limt := 1 in
  let '(l0, l1, l2, l3) := cfg_country_limits cfg in
  reference_raster <- opened ;;
  let grids := _construct_grids reference_raster in
  Ok {| security_limt := security_limt;
        x_min_limit := fsub binary64 l0 (of_Z binary64 security_limt);
        x_max_limit := fadd binary64 l1 (of_Z binary64 security_limt);
        y_min_limit := fsub binary64 l2 (of_Z binary64 security_limt);
        y_max_limit := fadd binary64 l3 (of_Z binary64 security_limt);
        resolution := cfg_resolution cfg;
        crs := cfg_crs cfg;
        no_data_val := cfg_no_data_val cfg;
        positive_mask_val := cfg_positive_mask_val cfg;
        negative_mask_val := cfg_positive_mask_val cfg;
        reference_raster := reference_raster;
        xgrid := grids.1;
        ygrid := grids.2;
        x_center_point := np_median grids.1;
        y_center_point := np_median grids.2 |}.

(** [_read_array_standarized]: the checks in source order. *)
Definition _read_array_standarized (self : Raster_Standards) (raster : dataset)
    (raster_name : string) : result array2 :=
  (* 1 *)
  let res_n_s := aff_e (meta_transform raster) in
  raise_if (py_gt res_n_s f0)
    (Exception "Behavior not expected. The North South resolution is excpected to be negative") (
  (* 2 *)
  raise_if (1 <? meta_count raster)
    (Exception "For some reason there are more than one layer in this raster") (
  raise_if (meta_count raster =? 0)
    (Exception "For some reason this raster is empty") (
  (* 3 *)
  raster_code <- crs_code raster ;;
  raise_if (negb (raster_code =? crs self))
    (Exception "Sorry,crs from this raster is no EPSG:4326") (
  (* 4 *)
  raster_array <- read raster None ;;
  (* 5 *)
  let ref_res := py_round (aff_a (meta_transform (reference_raster self))) 5 in
  raise_if (negb (py_eq ref_res (py_round (aff_a (meta_transform raster)) 5)))
    (ExceptionF "Files are not on the same resolution. That should be " (FFloat ref_res)) (
  (* 6, twice in the source *)
  raise_if (py_ne_opt (nodata raster) (no_data_val self))
    (ExceptionF "Raster dont have default no data val. That should be "
                (FFloat (no_data_val self))) (
  raise_if (py_ne_opt (nodata raster) (no_data_val self))
    (ExceptionF "Raster dont have default no data val. That should be "
                (FFloat (no_data_val self))) (
  (* 7 *)
  raise_if (negb (String.eqb (meta_dtype raster) (meta_dtype (reference_raster self))))
    (ExceptionF "Raster dont have default dtype. That should be "
                (FStr (meta_dtype (reference_raster self)))) (
  (* 8 *)
  Ok raster_array)))))))).

End RasterStandardsV2.


(** ** Strings, paths and the file system *)

(** [s.endswith(suffix)]. *)
Definition endswith (s suffix : string) : bool :=
  let n := String.length s in
  let k := String.length suffix in
  (k <=? n)%nat && String.eqb (String.substring (n - k) k s) suffix.

(** [os.path.join(a, b)] on POSIX. *)
Definition os_path_join (a b : string) : string :=
  if String.prefix "/" b then b
  else if String.eqb a "" || endswith a "/" then a +:+ b
  else a +:+ "/" +:+ b.

(** [path.split("/")[-1]]. *)
Fixpoint last_component (acc path : string) : string :=
  match path with
  | EmptyString => acc
  | String ch rest =>
      if String.eqb (String ch "") "/" then last_component "" rest
      else last_component (acc +:+ String ch "") rest
  end.

(** [sorted] on a list of strings (code-point order, stable). *)
Fixpoint sorted_insert (x : string) (l : list string) : list string :=
  match l with
  | [] => [x]
  | y :: l' => if String.ltb x y then x :: l else y :: sorted_insert x l'
  end.

Definition sorted (l : list string) : list string :=
  fold_left (fun acc x => sorted_insert x acc) l [].

(** What the program sees of the disk: for a directory, the [filenames] of
    the first triple [os.walk] yields (in the order the OS lists them; no
    entry when [os.walk] yields nothing), and for a path the dataset
    [rasterio.open] returns. *)
Record filesystem := {
  fs_dirs : gmap string (list string);
  fs_rasters : gmap string dataset }.

Definition rasterio_open (fs : filesystem) (path : string) : result dataset :=
  match fs_rasters fs !! path with
  | Some ds => Ok ds
  | None => Raise (BuiltinError "RasterioIOError")
  end.

(** [np.stack] of 2-D arrays along a new leading axis. *)
Definition np_stack (arrays : list array2) : result array3 :=
  match arrays with
  | [] => Raise (BuiltinError "ValueError")
  | a :: rest =>
      if forallb (fun b => bool_decide (shape2 b = shape2 a)) rest
      then Ok arrays
      else Raise (BuiltinError "ValueError")
  end.

Module RasterStandardsV2_IO.
Import RasterStandardsV2.

(** [get_raster_array]. *)
Definition get_raster_array (self : Raster_Standards) (fs : filesystem)
    (path : string) : result array2 :=
  raster <- rasterio_open fs path ;;
  _read_array_standarized self raster (last_component "" path).

(** The inner [for filepath, filename in zip(...)] loop of
    [get_rasters_from_dir]; [rasters] is the list being appended to. *)
Fixpoint read_tif_loop (self : Raster_Standards) (fs : filesystem)
    (pairs : list (string * string)) (rasters : list array2) : result (list array2) :=
  match pairs with
  | [] => Ok rasters
  | (filepath, filename) :: rest =>
      if endswith filename ".tif" then
        raster_array <- get_raster_array self fs filepath ;;
        read_tif_loop self fs rest (rasters ++ [raster_array])
      else read_tif_loop self fs rest rasters
  end.

(** [get_rasters_from_dir]: only the first triple of [os.walk] is used
    (the loop ends with [break]). *)
Definition get_rasters_from_dir (self : Raster_Standards) (fs : filesystem)
    (dir_path : string) : result array3 :=
  rasters <-
    match fs_dirs fs !! dir_path with
    | None => Ok []
    | Some filenames =>
        let dir_files_paths_list := sorted (map (os_path_join dir_path) filenames) in
        read_tif_loop self fs (zip dir_files_paths_list filenames) []
    end ;;
  np_stack rasters.

(** The paths [get_rasters_from_dir] hands to [get_raster_array], in order. *)
Definition paths_read (dir_path : string) (filenames : list string) : list string :=
  map fst (filter (fun p => Is_true (endswith p.2 ".tif"))
             (zip (sorted (map (os_path_join dir_path) filenames)) filenames)).

End RasterStandardsV2_IO.

(** ** Grid registry, first version ([raster_standars.py]) *)

(** [int(x)] of a float: truncation toward zero. *)
Definition py_int (x : float) : result Z :=
  match x with
  | S754_zero _ => Ok 0
  | S754_finite s m e =>
      Ok (cond_Zopp s (if 0 <=? e then Zpos m * 2 ^ e else Zpos m / 2 ^ (- e)))
  | S754_infinity _ => Raise (BuiltinError "OverflowError")
  | S754_nan => Raise (BuiltinError "ValueError")
  end.

(** [~aff] and [aff * (x, y)] of the [affine] package. *)
Definition affine_invert (t : affine) : result affine :=
  let det := fsub binary64 (fmul binary64 (aff_a t) (aff_e t))
                           (fmul binary64 (aff_b t) (aff_d t)) in
  if py_eq det f0 then Raise (BuiltinError "TransformNotInvertibleError")
  else
    let idet := fdiv binary64 f1 det in
    let ra := fmul binary64 (aff_e t) idet in
    let rb := fmul binary64 (fneg (aff_b t)) idet in
    let rd := fmul binary64 (fneg (aff_d t)) idet in
    let re := fmul binary64 (aff_a t) idet in
    Ok {| aff_a := ra; aff_b := rb;
          aff_c := fsub binary64 (fmul binary64 (fneg (aff_c t)) ra)
                                 (fmul binary64 (aff_f t) rb);
          aff_d := rd; aff_e := re;
          aff_f := fsub binary64 (fmul binary64 (fneg (aff_c t)) rd)
                                 (fmul binary64 (aff_f t) re) |}.

Definition affine_apply (t : affine) (p : float * float) : float * float :=
  let '(vx, vy) := p in
  (fadd binary64 (fadd binary64 (fmul binary64 vx (aff_a t)) (fmul binary64 vy (aff_b t)))
                 (aff_c t),
   fadd binary64 (fadd binary64 (fmul binary64 vx (aff_d t)) (fmul binary64 vy (aff_e t)))
                 (aff_f t)).

Module RasterStandardsLegacy.

Record Raster_Standards := {
  security_limt : Z;
  x_min_limit : float;
  x_max_limit : float;
  y_min_limit : float;
  y_max_limit : float;
  resolution : float;
  crs : Z;
  no_data_val : float;
  xgrid : array1;
  ygrid : array1;
  Nx : nat;
  Ny : nat;
  x_center_point : float;
  y_center_point : float }.

(** [__init__] with [_construct_grids] inlined at its only call. *)
Definition __init__ `{Numpy} (resolution : float) (crs : Z) (no_data_val : float)
    (country_limits : float * float * float * float) : Raster_Standards :=
  let security_limt := 1 in
  let '(l0, l1, l2, l3) := country_limits in
  let x_min_limit := fsub binary64 l0 (of_Z binary64 security_limt) in
  let x_max_limit := fadd binary64 l1 (of_Z binary64 security_limt) in
  let y_min_limit := fsub binary64 l2 (of_Z binary64 security_limt) in
  let y_max_limit := fadd binary64 l3 (of_Z binary64 security_limt) in
  let xgrid := np_arange x_min_limit x_max_limit resolution in
  let ygrid := np_arange y_min_limit y_max_limit resolution in
  {| security_limt := security_limt;
     x_min_limit := x_min_limit; x_max_limit := x_max_limit;
     y_min_limit := y_min_limit; y_max_limit := y_max_limit;
     resolution := resolution; crs := crs; no_data_val := no_data_val;
     xgrid := xgrid; ygrid := ygrid;
     Nx := length xgrid; Ny := length ygrid;
     x_center_point := np_median xgrid;
     y_center_point := np_median ygrid |}.

(** [_get_window_from_extent]. *)
Definition _get_window_from_extent (self : Raster_Standards) (aff : affine)
  : result window :=
  inv <- affine_invert aff ;;
  let '(col_start, row_start) := affine_apply inv (x_min_limit self, y_max_limit self) in
  inv' <- affine_invert aff ;;
  let '(col_stop, row_stop) := affine_apply inv' (x_max_limit self, y_min_limit self) in
  r0 <- py_int row_start ;;
  r1 <- py_int row_stop ;;
  c0 <- py_int col_start ;;
  c1 <- py_int col_stop ;;
  Ok ((r0, r1), (c0, c1)).

(** [_reescale]: its first expression reads [self.raster_standars], an
    attribute the class never sets, so every call raises. *)
Definition _reescale (self : Raster_Standards) (raster_array : array2)
    (raster_object : dataset) : result array2 :=
  Raise (BuiltinError "AttributeError").

(** [raster_array[raster_array == raster.nodata] = self.no_data_val]. *)
Definition rewrite_nodata (nodata : option float) (no_data_val : float)
    (raster_array : array2) : array2 :=
  map (map (fun x =>
    match nodata with
    | Some v => if py_eq x v then no_data_val else x
    | None => x
    end)) raster_array.

(** [read_array_standarized]. *)
Definition read_array_standarized (self : Raster_Standards) (raster : dataset)
  : result array2 :=
  w <- _get_window_from_extent self (meta_transform raster) ;;
  raster_array <- read raster (Some w) ;;
  raster_array <-
    (if negb (py_eq (py_round (resolution self) 5)
                    (py_round (aff_a (meta_transform raster)) 5))
     then _reescale self raster_array raster
     else Ok raster_array) ;;
  let raster_array :=
    if py_ne_opt (nodata raster) (no_data_val self)
    then rewrite_nodata (nodata raster) (no_data_val self) raster_array
    else raster_array in
  Ok raster_array.

End RasterStandardsLegacy.

(** ** Coverage extractor ([raster_information_collector.py]) *)

(** [a[i]] on a 1-D array with a non-negative index. *)
Definition getitem1 {A} (a : list A) (i : nat) : result A :=
  match a !! i with
  | Some v => Ok v
  | None => Raise (BuiltinError "IndexError")
  end.

(** [np.concatenate((a, b), axis=1)] on 2-D arrays. *)
Definition np_concatenate_axis1 (a b : array2) : result array2 :=
  if (length a =? length b)%nat then Ok (zip_with app a b)
  else Raise (BuiltinError "ValueError").

Module RasterInformationCollector.
Import RasterStandardsV2.

Record Raster_Information_Collector := {
  output_dir : string;
  raster_standards : Raster_Standards;
  coorection_limit : Z }.

(** The working point of the border walk and the index offsets
    accumulated so far. *)
Record walk := {
  point_x : float;
  point_y : float;
  incx : Z;
  incy : Z }.

(** The four [if] statements of one iteration of the [while] loop, in
    source order; each one tests the point the previous ones left. *)
Definition quadrant_steps (rs : Raster_Standards) (w : walk) : walk :=
  let w :=
    if py_ge (point_x w) (x_center_point rs) && py_ge (point_y w) (y_center_point rs)
    then {| point_x := fsub binary64 (point_x w) (resolution rs);
            point_y := fsub binary64 (point_y w) (resolution rs);
            incx := incx w - 1;
            incy := incy w - 1 |}
    else w in
  let w :=
    if py_ge (point_x w) (x_center_point rs) && py_le (point_y w) (y_center_point rs)
    then {| point_x := fsub binary64 (point_x w) (resolution rs);
            point_y := fadd binary64 (point_y w) (resolution rs);
            incx := incx w - 1;
            incy := incy w + 1 |}
    else w in
  let w :=
    if py_le (point_x w) (x_center_point rs) && py_le (point_y w) (y_center_point rs)
    then {| point_x := fadd binary64 (point_x w) (resolution rs);
            point_y := fadd binary64 (point_y w) (resolution rs);
            incx := incx w + 1;
            incy := incy w + 1 |}
    else w in
  let w :=
    if py_le (point_x w) (x_center_point rs) && py_ge (point_y w) (y_center_point rs)
    then {| point_x := fadd binary64 (point_x w) (resolution rs);
            point_y := fsub binary64 (point_y w) (resolution rs);
            incx := incx w + 1;
            incy := incy w - 1 |}
    else w in
  w.

(** The [while (elem==-9999.0 and k<self.coorection_limit)] loop for
    occurrence [i]; [budget] is [coorection_limit - k]. *)
Fixpoint walk_loop (rs : Raster_Standards) (ix iy : list Z) (raster_array : array2)
    (i : nat) (budget : nat) (w : walk) (elem : float)
    (raster_occurrences_array : array1) : result array1 :=
  match budget with
  | O => Ok raster_occurrences_array
  | S budget' =>
      if py_eq elem m9999 then
        let w' := quadrant_steps rs w in
        ix_i <- getitem1 ix i ;;
        let new_ix := ix_i + incx w' in
        iy_i <- getitem1 iy i ;;
        let new_iy := iy_i + incy w' in
        value <- getitem2 raster_array (- new_iy) new_ix ;;
        if py_ne value m9999
        then walk_loop rs ix iy raster_array i budget' w' value
                       (<[i := value]> raster_occurrences_array)
        else walk_loop rs ix iy raster_array i budget' w' elem raster_occurrences_array
      else Ok raster_occurrences_array
  end.

(** The [for i,elem in enumerate(raster_occurrences_array)] loop over the
    remaining indices. *)
Fixpoint treat_loop (self : Raster_Information_Collector) (Long Lat : array1)
    (ix iy : list Z) (raster_array : array2) (indices : list nat)
    (raster_occurrences_array : array1) : result array1 :=
  match indices with
  | [] => Ok raster_occurrences_array
  | i :: rest =>
      elem <- getitem1 raster_occurrences_array i ;;
      if py_eq elem m9999 then
        px <- getitem1 Long i ;;
        py <- getitem1 Lat i ;;
        arr <- walk_loop (raster_standards self) ix iy raster_array i
                 (Z.to_nat (coorection_limit self))
                 {| point_x := px; point_y := py; incx := 0; incy := 0 |}
                 elem raster_occurrences_array ;;
        treat_loop self Long Lat ix iy raster_array rest arr
      else treat_loop self Long Lat ix iy raster_array rest raster_occurrences_array
  end.

(** [_treat_boarder_points]. *)
Definition _treat_boarder_points (self : Raster_Information_Collector)
    (Long Lat : array1) (ix iy : list Z) (raster_array : array2)
    (raster_occurrences_array : array1) : result array1 :=
  treat_loop self Long Lat ix iy raster_array
    (seq 0 (length raster_occurrences_array)) raster_occurrences_array.

(** [_fill_peristent_no_data_values_with_mean].  The index
    [[raster_occurrences_array!=-9999.0]] selects the entries that differ
    from the sentinel. *)
Definition _fill_peristent_no_data_values_with_mean `{Numpy}
    (raster_occurrences_array : array1) : array1 :=
  let mean_value :=
    np_mean (List.filter (fun x => py_ne x m9999) raster_occurrences_array) in
  fold_left
    (fun arr i =>
       match arr !! i with
       | Some elem => if py_eq elem m9999 then <[i := mean_value]> arr else arr
       | None => arr
       end)
    (seq 0 (length raster_occurrences_array)) raster_occurrences_array.

(** What the residual fill does to one entry. *)
Definition fill_value (mean_value : float) (x : float) : float :=
  if py_eq x m9999 then mean_value else x.

(** The [.npy] files of the output directory, by path. *)
Definition npy_path (self : Raster_Information_Collector) (species_name : string)
  : string :=
  output_dir self +:+ "/" +:+ species_name +:+ ".npy".

(** [with open(path, 'wb') as f: np.save(f, a)].  Opening for writing
    replaces a file that exists.  Where there is none, the OS decides
    whether one can be created at that path ([creatable]: its directory
    exists); if not, [open] raises [FileNotFoundError]. *)
Definition np_save (creatable : string → bool) (disk : gmap string array2)
    (path : string) (a : array2) : result (gmap string array2) :=
  match disk !! path with
  | Some _ => Ok (<[path := a]> disk)
  | None =>
      if creatable path then Ok (<[path := a]> disk)
      else Raise (BuiltinError "FileNotFoundError")
  end.

(** [_update_coverages]: the new contents of the disk and the array whose
    shape is printed at the end.  The write of the [except] handler is
    outside any [try]: when it raises, so does the call. *)
Definition _update_coverages (self : Raster_Information_Collector)
    (creatable : string → bool) (disk : gmap string array2)
    (species_name : string) (coverage : array2)
  : result (gmap string array2 * array2) :=
  try_except
    (match disk !! npy_path self species_name with
     | None => Raise (BuiltinError "FileNotFoundError")
     | Some numpy_raster_info =>
         coverage' <- np_concatenate_axis1 numpy_raster_info coverage ;;
         disk' <- np_save creatable disk (npy_path self species_name) coverage' ;;
         Ok (disk', coverage')
     end)
    (fun e =>
       disk' <- np_save creatable disk (npy_path self species_name) coverage ;;
       Ok (disk', coverage)).

End RasterInformationCollector.

(** ** Modelling pipeline ([one_class_svm_model.py]) *)

(** A fitted scikit-learn estimator, through [decision_function]. *)
Record classifier := {
  decision_function : array2 → result array1 }.

(** [svm.OneClassSVM(nu, kernel, gamma).fit(X)]. *)
Class Sklearn := {
  OneClassSVM_fit : float → string → string → array2 → result classifier }.

(** Broadcasting of a binary operation between the rows of a 2-D array
    and a 1-D array. *)
Definition broadcast_row (op : float → float → float) (row v : array1)
  : result array1 :=
  if (length row =? length v)%nat then Ok (zip_with op row v)
  else match v, row with
       | [y], _ => Ok (map (fun x => op x y) row)
       | _, [x] => Ok (map (fun y => op x y) v)
       | _, _ => Raise (BuiltinError "ValueError")
       end.

Definition broadcast2 (op : float → float → float) (X : array2) (v : array1)
  : result array2 :=
  mapM (fun row => broadcast_row op row v) X.

(** [X[np.isnan(X)] = 0]. *)
Definition nan_to_zero (X : array2) : array2 :=
  map (map (fun v => if isnan v then f0 else v)) X.

(** [np.where(a == v)] on a 2-D array: the matching (row, column) pairs in
    row-major order. *)
Fixpoint where_row (p : float → bool) (row : array1) (c : nat) : list nat :=
  match row with
  | [] => []
  | x :: row' => (if p x then [c] else []) ++ where_row p row' (S c)
  end.

Fixpoint where_rows (p : float → bool) (a : array2) (r : nat) : list (nat * nat) :=
  match a with
  | [] => []
  | row :: a' => map (pair r) (where_row p row 0) ++ where_rows p a' (S r)
  end.

Definition np_where (p : float → bool) (a : array2) : list (nat * nat) :=
  where_rows p a 0.

(** [a.min()] of a 1-D array: a [nan] entry makes the result [nan]. *)
Definition fmin (x y : float) : float :=
  if isnan x then x else if isnan y then y else if py_lt y x then y else x.

Definition np_min (a : array1) : result float :=
  match a with
  | [] => Raise (BuiltinError "ValueError")
  | x :: a' => Ok (fold_left fmin a' x)
  end.

(** [Z[idx[0], idx[1]] = values]. *)
Definition setitem2 (Z : array2) (rc : nat * nat) (v : float) : array2 :=
  match Z !! rc.1 with
  | Some row => <[rc.1 := <[rc.2 := v]> row]> Z
  | None => Z
  end.

Definition scatter (Z : array2) (idx : list (nat * nat)) (values : array1)
  : result array2 :=
  if (length values =? length idx)%nat
  then Ok (fold_left (fun Z p => setitem2 Z p.1 p.2) (zip idx values) Z)
  else match values with
       | [v] => Ok (fold_left (fun Z rc => setitem2 Z rc v) idx Z)
       | _ => Raise (BuiltinError "ValueError")
       end.

(** [Z[mask == 0] = v]. *)
Definition mask_assign (mask Z : array2) (v : float) : result array2 :=
  if bool_decide (shape2 mask = shape2 Z)
  then Ok (zip_with (zip_with (fun m z => if py_eq m f0 then v else z)) mask Z)
  else Raise (BuiltinError "IndexError").

Module OneClassSVM.
Import RasterStandardsV2.

Record OneClassSVMModel := {
  nu : float;
  kernel : string;
  gamma : string;
  seed : Z;
  raster_standards : Raster_Standards;
  land_reference : array2 }.

(** The matrix [fit] hands to the estimator: [train_cover_std] after the
    [isnan] assignment.  [dtype] is the element format of the operands. *)
Definition train_cover_std (dtype : format) (raster_data_train : array2)
    (global_mean global_std : array1) : result array2 :=
  centered <- broadcast2 (fsub dtype) raster_data_train global_mean ;;
  scaled <- broadcast2 (fdiv dtype) centered global_std ;;
  Ok (nan_to_zero scaled).

(** [fit]. *)
Definition fit `{Sklearn} (self : OneClassSVMModel) (dtype : format)
    (raster_data_train : array2) (global_mean global_std : array1)
  : result classifier :=
  X <- train_cover_std dtype raster_data_train global_mean global_std ;;
  OneClassSVM_fit (nu self) (kernel self) (gamma self) X.

(** [stacked_raster_coverages[:, idx[0], idx[1]].T]: one row per selected
    pixel, one column per layer. *)
Definition gather (stacked : array3) (idx : list (nat * nat)) : result array2 :=
  mapM (fun rc =>
          mapM (fun layer : array2 =>
                  row <- getitem1 layer rc.1 ;; getitem1 row rc.2) stacked) idx.

(** The [for k in range(raster_coverages_land.shape[1])] loop replacing,
    in column [k], the cells at or below the sentinel by [global_mean[k]];
    [ncols] is the number of layers. *)
Definition fill_with_global_mean (no_data : float) (global_mean : array1)
    (ncols : nat) (land : array2) : result array2 :=
  if (ncols <=? length global_mean)%nat
  then Ok (map (fun row =>
                  zip_with (fun x m => if py_le x no_data then m else x)
                           row global_mean) land)
  else Raise (BuiltinError "IndexError").

(** [(shape[1], shape[2])] of the 3-D stack. *)
Definition stack_shape (stacked : array3) : nat * nat :=
  match stacked with
  | [] => (0%nat, 0%nat)
  | layer :: _ => shape2 layer
  end.

(** [idx]: the pixels whose land-reference value equals the positive mask
    value. *)
Definition land_pixels (self : OneClassSVMModel) : list (nat * nat) :=
  np_where (fun m => py_eq m (positive_mask_val (raster_standards self)))
           (land_reference self).

(** [scaled_coverages_land] as handed to [decision_function]. *)
Definition scaled_coverages_land (self : OneClassSVMModel) (dtype : format)
    (stacked_raster_coverages : array3) (global_mean global_std : array1)
  : result array2 :=
  raster_coverages_land <- gather stacked_raster_coverages (land_pixels self) ;;
  raster_coverages_land <-
    fill_with_global_mean (no_data_val (raster_standards self)) global_mean
      (length stacked_raster_coverages) raster_coverages_land ;;
  centered <- broadcast2 (fsub dtype) raster_coverages_land global_mean ;;
  scaled <- broadcast2 (fdiv dtype) centered global_std ;;
  Ok (nan_to_zero scaled).

(** The part of [predict_land] after the scores are known: the raster of
    the lowest score, the scores scattered to their pixels, the sentinel
    where the land reference is 0. *)
Definition spatial_predictions (self : OneClassSVMModel) (shape : nat * nat)
    (global_pred : array1) : result array2 :=
  lowest <- np_min global_pred ;;
  let Z := replicate shape.1 (replicate shape.2 (fmul binary64 f1 lowest)) in
  Z <- scatter Z (land_pixels self) global_pred ;;
  mask_assign (land_reference self) Z (no_data_val (raster_standards self)).

(** [predict_land]. *)
Definition predict_land (self : OneClassSVMModel) (dtype : format)
    (stacked_raster_coverages : array3) (clf : classifier)
    (global_mean global_std : array1) : result array2 :=
  let stacked_raster_coverages_shape := stack_shape stacked_raster_coverages in
  scaled <- scaled_coverages_land self dtype stacked_raster_coverages
              global_mean global_std ;;
  global_pred <- decision_function clf scaled ;;
  spatial_predictions self stacked_raster_coverages_shape global_pred.

End OneClassSVM.

(** ** K-fold partition *)

Module KFold.

(** Modelled from the spec: [sklearn.model_selection.KFold], which
    [perform_K_folder_preidction] calls as
    [KFold(n_splits=K, random_state=seed, shuffle=True).split(data)] and
    which is not part of the repository.  The occurrence indices
    [0 .. n_samples-1] are shuffled (the seeded shuffle is [shuffle]) and
    cut into [n_splits] consecutive test partitions, the first
    [n_samples mod n_splits] of them one longer than the others; a fold's
    train and test index arrays are the indices outside and inside its
    test partition, in ascending order.  Fewer than two folds, or more
    folds than occurrences, would leave a train or test partition empty and
    is fatal. *)
Definition fold_sizes (n_splits n_samples : nat) : list nat :=
  map (fun j => (n_samples / n_splits + (if j <? n_samples mod n_splits then 1 else 0))%nat)
      (seq 0 n_splits).

Fixpoint chunks (sizes : list nat) (indices : list nat) : list (list nat) :=
  match sizes with
  | [] => []
  | size :: sizes' => take size indices :: chunks sizes' (drop size indices)
  end.

Definition fold_of (n_samples : nat) (test_part : list nat) : list nat * list nat :=
  (filter (λ i, i ∉ test_part) (seq 0 n_samples),
   filter (λ i, i ∈ test_part) (seq 0 n_samples)).

Definition split (shuffle : list nat → list nat) (n_splits n_samples : nat)
  : result (list (list nat * list nat)) :=
  if (n_splits <=? 1)%nat then Raise (BuiltinError "ValueError")
  else if (n_samples <? n_splits)%nat then Raise (BuiltinError "ValueError")
  else Ok (map (fold_of n_samples)
               (chunks (fold_sizes n_splits n_samples) (shuffle (seq 0 n_samples)))).

End KFold.

(** [np.searchsorted(grid, v)] (side left) on an ascending grid: the first
    index whose grid value is not below [v]. *)
Fixpoint np_searchsorted (grid : array1) (v : float) : Z :=
  match grid with
  | [] => 0
  | g :: grid' => if py_lt g v then 1 + np_searchsorted grid' v else 0
  end.

(** ** Concrete inputs used by the examples below *)

Module Scenario.
Import RasterStandardsV2.

(** The double [m * 2^e]. *)
Definition dyadic (m e : Z) : float := canon (binary_normalize 53 1024 m e false).
Definition fl (z : Z) : float := dyadic z 0.

(** A north-up transform with unit cells whose top-left corner is
    [(0, top)]. *)
Definition unit_transform (top : Z) : affine :=
  {| aff_a := fl 1; aff_b := f0; aff_c := f0;
     aff_d := f0; aff_e := fl (-1); aff_f := fl top |}.

(** The part of [data] inside a window that lies within the array. *)
Definition crop (w : window) (data : array2) : array2 :=
  let '((r0, r1), (c0, c1)) := w in
  map (fun row => take (Z.to_nat (c1 - c0)) (drop (Z.to_nat c0) row))
      (take (Z.to_nat (r1 - r0)) (drop (Z.to_nat r0) data)).

(** A single-band EPSG:4326 float32 GeoTIFF with unit cells holding
    [data]. *)
Definition geotiff (nodata : option float) (data : array2) : dataset :=
  {| meta_transform := unit_transform (Z.of_nat (length data));
     meta_count := 1;
     meta_dtype := "float32";
     profile_width := Z.of_nat (shape2 data).2;
     profile_height := Z.of_nat (length data);
     crs_code := Ok 4326;
     nodata := nodata;
     read := fun w => Ok (match w with None => data | Some w => crop w data end) |}.

Definition reference : dataset :=
  geotiff (Some m9999) [[fl 1; fl 1]; [fl 1; fl 1]].

(** A configuration whose two mask values differ. *)
Definition configs : raster_base_configs :=
  {| cfg_resolution := fl 1;
     cfg_crs := 4326;
     cfg_no_data_val := m9999;
     cfg_positive_mask_val := fl 1;
     cfg_negative_mask_val := f0;
     cfg_country_limits := (fl 1, fl 1, fl 1, fl 1) |}.

(** A layer that declares [-1] as its no-data value. *)
Definition layer_minus_one : dataset :=
  geotiff (Some (fl (-1))) [[fl (-1); fl 5]; [fl 7; fl (-1)]].

(** A directory the OS lists as [b.tif], [a.tiff]. *)
Definition layer_a : array2 := [[fl 10; fl 11]; [fl 12; fl 13]].
Definition layer_b : array2 := [[fl 20; fl 21]; [fl 22; fl 23]].

Definition disk : filesystem :=
  {| fs_dirs := {[ "rasters" := ["b.tif"; "a.tiff"] ]};
     fs_rasters := {[ "rasters/a.tiff" := geotiff (Some m9999) layer_a;
                      "rasters/b.tif" := geotiff (Some m9999) layer_b ]} |}.

(** An 11 x 11 grid with unit cells: axis values 0 .. 10, centre (5, 5). *)
Definition axis : array1 := map fl (seqZ 0 11).

Definition grid11 : Raster_Standards :=
  {| security_limt := 1;
     x_min_limit := fl 0; x_max_limit := fl 11;
     y_min_limit := fl 0; y_max_limit := fl 11;
     resolution := fl 1;
     crs := 4326;
     no_data_val := m9999;
     positive_mask_val := fl 1;
     negative_mask_val := fl 1;
     reference_raster := reference;
     xgrid := axis;
     ygrid := axis;
     x_center_point := fl 5;
     y_center_point := fl 5 |}.

(** A raster that is no-data everywhere except at array position
    [(row, col)], where it holds 42. *)
Definition single_cell (row col : nat) : array2 :=
  <[row := <[col := fl 42]> (replicate 11 m9999)]> (replicate 11 (replicate 11 m9999)).

(** An occurrence at longitude 8, latitude 5.5: east of the centre and
    half a cell north of it. *)
Definition Long : array1 := [fl 8].
Definition Lat : array1 := [dyadic 11 (-1)].
Definition ix : list Z := map (np_searchsorted axis) Long.
Definition iy : list Z := map (np_searchsorted axis) Lat.

(** The cell one step toward the centre on both axes is pixel
    [(ix - 1, iy - 1) = (7, 5)], array position [(-5, 7)], that is row 6. *)
Definition coast : array2 := single_cell 6 7.

Definition collector (limit : Z) : RasterInformationCollector.Raster_Information_Collector :=
  {| RasterInformationCollector.output_dir := "out";
     RasterInformationCollector.raster_standards := grid11;
     RasterInformationCollector.coorection_limit := limit |}.

(** A stored feature matrix with three occurrence rows and new columns
    with two. *)
Definition stored : array2 := [[fl 1]; [fl 2]; [fl 3]].
Definition fresh : array2 := [[fl 7]; [fl 8]].

(** A 2 x 2 land reference with one sea pixel, a one-layer covariate
    stack, and two classifiers: one scores a sample by its first feature,
    the other gives every sample the score -9999. *)
Definition land_mask : array2 := [[fl 1; f0]; [fl 1; fl 1]].
Definition covariates : array3 := [[[fl 2; fl 4]; [fl 6; fl 8]]].

Definition svm_model : OneClassSVM.OneClassSVMModel :=
  {| OneClassSVM.nu := dyadic 1 (-1);
     OneClassSVM.kernel := "rbf";
     OneClassSVM.gamma := "scale";
     OneClassSVM.seed := 0;
     OneClassSVM.raster_standards := grid11;
     OneClassSVM.land_reference := land_mask |}.

Definition first_feature_clf : classifier :=
  {| decision_function := λ X, Ok (map (λ row, default f0 (head row)) X) |}.

Definition sentinel_clf : classifier :=
  {| decision_function := λ X, Ok (map (λ _, m9999) X) |}.

End Scenario.

(** ** Land-reference reading of the two grid registries *)

Module RasterStandardsV2_Mask.
Import RasterStandardsV2.

(** [_get_window_from_extent]. *)
Definition _get_window_from_extent (self : Raster_Standards) (aff : affine)
  : result window :=
  inv <- affine_invert aff ;;
  let '(col_start, row_start) := affine_apply inv (x_min_limit self, y_max_limit self) in
  inv' <- affine_invert aff ;;
  let '(col_stop, row_stop) := affine_apply inv' (x_max_limit self, y_min_limit self) in
  r0 <- py_int row_start ;;
  r1 <- py_int row_stop ;;
  c0 <- py_int col_start ;;
  c1 <- py_int col_stop ;;
  Ok ((r0, r1), (c0, c1)).

(** [_reescale].  The resampling branch starts with
    [self.resolution/raster.meta['transform'][0]], and no name [raster] is
    bound in the method or in the module, so that branch raises as soon as
    it is entered. *)
Definition _reescale (self : Raster_Standards) (raster_array : array2)
    (raster_object : dataset) : result (array2 * affine) :=
  if negb (py_eq (py_round (resolution self) 5)
                 (py_round (aff_a (meta_transform raster_object)) 5))
  then Raise (BuiltinError "NameError")
  else Ok (raster_array, meta_transform raster_object).

(** [get_land_reference_array_mask]. *)
Definition get_land_reference_array_mask (self : Raster_Standards) (fs : filesystem)
    (land_reference_path : string) : result array2 :=
  raster <- rasterio_open fs land_reference_path ;;
  w <- _get_window_from_extent self (meta_transform raster) ;;
  raster_array <- read raster (Some w) ;;
  scaled <- _reescale self raster_array raster ;;
  Ok scaled.1.

End RasterStandardsV2_Mask.

Module RasterStandardsLegacy_Mask.
Import RasterStandardsLegacy.

(** [get_land_reference_array_mask] of the first version: [_reescale] is
    called whatever the resolution. *)
Definition get_land_reference_array_mask (self : Raster_Standards) (fs : filesystem)
    (land_reference_path : string) : result array2 :=
  raster <- rasterio_open fs land_reference_path ;;
  w <- _get_window_from_extent self (meta_transform raster) ;;
  raster_array <- read raster (Some w) ;;
  _reescale self raster_array raster.

End RasterStandardsLegacy_Mask.

(** ** The extraction run of the coverage extractor *)

(** [np.searchsorted(grid, keys)] on an array of keys, through its
    interface. *)
Class Searchsorted := {
  np_searchsorted_keys : array1 → array1 → list Z }.

(** [raster_array[-iy, ix]] with two index arrays of one length. *)
Definition take_points (raster_array : array2) (iy ix : list Z) : result array1 :=
  if (length iy =? length ix)%nat
  then mapM (λ p : Z * Z, getitem2 raster_array (- p.1) p.2) (zip iy ix)
  else Raise (BuiltinError "IndexError").

(** [np.stack] of 1-D arrays. *)
Definition np_stack1 (arrays : list array1) : result array2 :=
  match arrays with
  | [] => Raise (BuiltinError "ValueError")
  | a :: rest =>
      if forallb (λ b : array1, (length b =? length a)%nat) rest
      then Ok arrays
      else Raise (BuiltinError "ValueError")
  end.

(** [a.T] of a 2-D array. *)
Definition column (j : nat) (a : array2) : array1 :=
  omap (λ row : array1, row !! j) a.

Definition transpose (a : array2) : array2 :=
  map (λ j, column j a) (seq 0 (shape2 a).2).

Module RasterInformationCollector_Save.
Import RasterStandardsV2 RasterStandardsV2_IO RasterInformationCollector.

(** The body of the [for i,fp in enumerate(root_raster_files_list)] loop:
    the vector appended to [all_env_values_list] for the file [fp]. *)
Definition layer_values `{Numpy} (self : Raster_Information_Collector)
    (fs : filesystem) (Long Lat : array1) (ix iy : list Z) (fp : string)
  : result array1 :=
  raster_array <- get_raster_array (raster_standards self) fs fp ;;
  raster_occurrences_array <- take_points raster_array iy ix ;;
  raster_occurrences_array <-
    _treat_boarder_points self Long Lat ix iy raster_array raster_occurrences_array ;;
  Ok (_fill_peristent_no_data_values_with_mean raster_occurrences_array).

(** [save_coverges_to_numpy]; [data] is what [gpd.read_file(specie_dir)]
    gives: per occurrence the pair (LATITUDE, LONGITUDE). *)
Definition save_coverges_to_numpy `{Numpy} `{Searchsorted}
    (self : Raster_Information_Collector) (fs : filesystem)
    (creatable : string → bool) (disk : gmap string array2)
    (data : result (list (float * float)))
    (species_name : string) (root_raster_files_list : list string)
  : result (gmap string array2 * array2) :=
  coordinates <- data ;;
  let Long := map snd coordinates in
  let Lat := map fst coordinates in
  let ix := np_searchsorted_keys (xgrid (raster_standards self)) Long in
  let iy := np_searchsorted_keys (ygrid (raster_standards self)) Lat in
  all_env_values_list <-
    mapM (layer_values self fs Long Lat ix iy) root_raster_files_list ;;
  stacked <- np_stack1 all_env_values_list ;;
  let coverage := transpose stacked in
  _update_coverages self creatable disk species_name coverage.

End RasterInformationCollector_Save.

(** ** Further operations of the modelling pipeline *)

Module OneClassSVM_Run.
Import RasterStandardsV2 OneClassSVM.

(** [predict_test_occurences]. *)
Definition predict_test_occurences (dtype : format) (raster_data_test : array2)
    (clf : classifier) (global_mean global_std : array1) : result array1 :=
  centered <- broadcast2 (fsub dtype) raster_data_test global_mean ;;
  scaled <- broadcast2 (fdiv dtype) centered global_std ;;
  let scaled_species_raster_test := nan_to_zero scaled in
  decision_function clf scaled_species_raster_test.

(** [s.split(sep)[0]] for a one-character separator: the part before the
    first separator. *)
Fixpoint first_component (sep : string) (s : string) : string :=
  match s with
  | EmptyString => EmptyString
  | String ch rest =>
      if String.eqb (String ch "") sep then EmptyString
      else String ch (first_component sep rest)
  end.

(** [sep in s] for a one-character [sep]. *)
Fixpoint contains_char (sep : string) (s : string) : bool :=
  match s with
  | EmptyString => false
  | String ch rest => String.eqb (String ch "") sep || contains_char sep rest
  end.

(** [species_occurence_path.split("/")[-1].split(".")[0]], step 1 of
    [perform_K_folder_preidction]. *)
Definition species_name_of (species_occurence_path : string) : string :=
  first_component "." (last_component "" species_occurence_path).

End OneClassSVM_Run.

(** ** Further concrete inputs *)

Module Scenario2.
Import RasterStandardsV2 Scenario.

(** A sequential mean, for the examples only. *)
Definition seq_mean (a : array1) : float :=
  fdiv binary64 (fold_left (fadd binary64) a f0) (of_Z binary64 (Z.of_nat (length a))).

Definition example_numpy : Numpy :=
  {| np_arange := λ _ _ _, [];
     np_median := λ _, f0;
     np_mean := seq_mean |}.

Definition example_searchsorted : Searchsorted :=
  {| np_searchsorted_keys := λ grid keys, map (np_searchsorted grid) keys |}.

(** An 11 x 11 raster on [grid11] that is valid (value 3) everywhere. *)
Definition plain : array2 := replicate 11 (replicate 11 (fl 3)).

(** A raster with cells of half a unit. *)
Definition half_layer : dataset :=
  {| meta_transform :=
       {| aff_a := dyadic 1 (-1); aff_b := f0; aff_c := f0;
          aff_d := f0; aff_e := dyadic (-1) (-1); aff_f := fl 2 |};
     meta_count := 1;
     meta_dtype := "float32";
     profile_width := 2;
     profile_height := 2;
     crs_code := Ok 4326;
     nodata := Some m9999;
     read := λ _, Ok layer_a |}.

(** A layer that declares [nan] as its no-data value. *)
Definition nan_cells : array2 := [[S754_nan; fl 5]; [fl 7; S754_nan]].
Definition nan_layer : dataset := geotiff (Some S754_nan) nan_cells.

(** A raster that is valid only at the cell the first iteration of the
    walk samples for the occurrence at longitude 8, latitude 5.5: pixel
    [(ix - 2, iy) = (6, 6)], array position [(-6, 6)], that is row 5. *)
Definition shore : array2 := single_cell 5 6.

(** A disk with rasters on [grid11] ([coast] and [shore], valid at one
    cell only, and [plain]), a directory listed in sorted order, one without
    [.tif] name and one whose only [.tif] file declares another no-data
    value. *)
Definition disk2 : filesystem :=
  {| fs_dirs := {[ "sorted" := ["a.tif"; "b.txt"; "c.tif"];
                   "none" := ["notes.txt"];
                   "broken" := ["x.tif"] ]};
     fs_rasters := {[ "plain.tif" := geotiff (Some m9999) plain;
                      "coast.tif" := geotiff (Some m9999) coast;
                      "shore.tif" := geotiff (Some m9999) shore;
                      "sorted/a.tif" := geotiff (Some m9999) layer_a;
                      "sorted/c.tif" := geotiff (Some m9999) layer_b;
                      "broken/x.tif" := layer_minus_one;
                      "half.tif" := half_layer ]} |}.

(** A grid of the first version with bounds (0, 2, 0, 2). *)
Definition legacy_grid : RasterStandardsLegacy.Raster_Standards :=
  @RasterStandardsLegacy.__init__ example_numpy (fl 1) 4326 m9999
    (fl 1, fl 1, fl 1, fl 1).

(** Two occurrences: (lat 5.5, lon 8) and (lat 2, lon 3). *)
Definition occurrences : list (float * float) :=
  [(dyadic 11 (-1), fl 8); (fl 2, fl 3)].

End Scenario2.

(** * Properties *)

(** ** Grid registry *)

Section GridRegistry.
Import RasterStandardsV2 RasterStandardsV2_IO.

(** Whatever the configuration, the constructor stores the configured
    positive mask value in both mask fields. *)
Lemma init_mask_fields `{Numpy} cfg ds rs :
  __init__ cfg (Ok ds) = Ok rs →
  positive_mask_val rs = cfg_positive_mask_val cfg ∧
  negative_mask_val rs = cfg_positive_mask_val cfg.
Proof.
  unfold __init__. destruct (cfg_country_limits cfg) as [[[l0 l1] l2] l3].
  simpl. intros [= <-]. split; reflexivity.
Qed.

(** C1 (the constructed grid reflects each configured mask value), at a
    configuration with positive mask 1 and negative mask 0: construction
    succeeds and the positive field holds 1, but the negative field holds 1
    as well, not the configured 0. *)
Theorem init_negative_mask_holds_positive_value `{Numpy} :
  ∃ rs, __init__ Scenario.configs (Ok Scenario.reference) = Ok rs
        ∧ positive_mask_val rs = cfg_positive_mask_val Scenario.configs
        ∧ negative_mask_val rs = Scenario.fl 1
        ∧ cfg_negative_mask_val Scenario.configs = f0
        ∧ negative_mask_val rs ≠ cfg_negative_mask_val Scenario.configs.
Proof.
  eexists. split; [reflexivity |]. cbn.
  repeat split; try reflexivity. discriminate.
Qed.

(** The validated read of the second version: a layer whose declared
    no-data value differs from the grid's never yields an array. *)
Lemma read_validated_rejects_nodata self raster raster_name :
  py_ne_opt (nodata raster) (no_data_val self) = true →
  ∃ e, _read_array_standarized self raster raster_name = Raise e.
Proof.
  intros Hne. unfold _read_array_standarized, raise_if, bind. rewrite Hne.
  repeat match goal with
         | |- ∃ e, (if true then _ else _) = _ => eexists; reflexivity
         | |- ∃ e, (if ?c then _ else _) = _ => destruct c; [eexists; reflexivity |]
         | |- ∃ e, match ?m with Ok _ => _ | Raise _ => _ end = _ =>
             destruct m; [| eexists; reflexivity]
         end.
  eexists; reflexivity.
Qed.

(** When every earlier check passes, the exception is the no-data one and
    carries the expected value. *)
Lemma read_validated_nodata_error self raster raster_name raster_array :
  py_gt (aff_e (meta_transform raster)) f0 = false →
  meta_count raster = 1 →
  crs_code raster = Ok (crs self) →
  read raster None = Ok raster_array →
  py_eq (py_round (aff_a (meta_transform (reference_raster self))) 5)
        (py_round (aff_a (meta_transform raster)) 5) = true →
  py_ne_opt (nodata raster) (no_data_val self) = true →
  _read_array_standarized self raster raster_name =
  Raise (ExceptionF "Raster dont have default no data val. That should be "
                    (FFloat (no_data_val self))).
Proof.
  intros H1 H2 H3 H4 H5 H6. unfold _read_array_standarized, raise_if, bind.
  rewrite H1, H2, H3, H4, H5, H6. simpl. rewrite Z.eqb_refl. reflexivity.
Qed.

(** A successful validated read returns exactly what [raster.read(1)]
    returned, and only for a layer with the grid's no-data value. *)
Lemma read_validated_returns_band self raster raster_name raster_array :
  _read_array_standarized self raster raster_name = Ok raster_array →
  read raster None = Ok raster_array ∧
  py_ne_opt (nodata raster) (no_data_val self) = false.
Proof.
  unfold _read_array_standarized, raise_if, bind.
  repeat match goal with
         | |- (if ?c then _ else _) = _ → _ => destruct c eqn:?; [discriminate |]
         | |- match ?m with Ok _ => _ | Raise _ => _ end = _ → _ =>
             destruct m eqn:?; [| discriminate]
         end.
  intros [= <-]. split; reflexivity.
Qed.

(** A layer that passes every check is returned unmodified. *)
Lemma read_validated_accepts self raster raster_name raster_array :
  py_gt (aff_e (meta_transform raster)) f0 = false →
  meta_count raster = 1 →
  crs_code raster = Ok (crs self) →
  read raster None = Ok raster_array →
  py_eq (py_round (aff_a (meta_transform (reference_raster self))) 5)
        (py_round (aff_a (meta_transform raster)) 5) = true →
  py_ne_opt (nodata raster) (no_data_val self) = false →
  meta_dtype raster = meta_dtype (reference_raster self) →
  _read_array_standarized self raster raster_name = Ok raster_array.
Proof.
  intros H1 H2 H3 H4 H5 H6 H7. unfold _read_array_standarized, raise_if, bind.
  rewrite H1, H2, H3, H4, H5, H6, H7. simpl.
  rewrite Z.eqb_refl, String.eqb_refl. reflexivity.
Qed.

(** C2: the validated read rejects every layer whose declared no-data
    value differs from the grid's (a layer that declares none included): it
    raises and returns no array, and when the earlier checks pass the
    exception is the no-data one, carrying the expected value.  No cell is
    ever rewritten: whatever the validated read returns is band 1 exactly as
    read, of a layer with the grid's no-data value; and a layer that matches
    every check is returned. *)
Theorem read_validated_nodata_mismatch self raster raster_name :
  py_ne_opt (nodata raster) (no_data_val self) = true →
  (∃ e, _read_array_standarized self raster raster_name = Raise e)
  ∧ (∀ raster_array,
       py_gt (aff_e (meta_transform raster)) f0 = false →
       meta_count raster = 1 →
       crs_code raster = Ok (crs self) →
       read raster None = Ok raster_array →
       py_eq (py_round (aff_a (meta_transform (reference_raster self))) 5)
             (py_round (aff_a (meta_transform raster)) 5) = true →
       _read_array_standarized self raster raster_name
       = Raise (ExceptionF "Raster dont have default no data val. That should be "
                           (FFloat (no_data_val self))))
  ∧ (∀ layer layer_name raster_array,
       _read_array_standarized self layer layer_name = Ok raster_array →
       read layer None = Ok raster_array
       ∧ py_ne_opt (nodata layer) (no_data_val self) = false)
  ∧ (∀ layer layer_name raster_array,
       py_gt (aff_e (meta_transform layer)) f0 = false →
       meta_count layer = 1 →
       crs_code layer = Ok (crs self) →
       read layer None = Ok raster_array →
       py_eq (py_round (aff_a (meta_transform (reference_raster self))) 5)
             (py_round (aff_a (meta_transform layer)) 5) = true →
       py_ne_opt (nodata layer) (no_data_val self) = false →
       meta_dtype layer = meta_dtype (reference_raster self) →
       _read_array_standarized self layer layer_name = Ok raster_array).
Proof.
  intros Hne. split_and!.
  - by apply read_validated_rejects_nodata.
  - intros raster_array H1 H2 H3 H4 H5. by eapply read_validated_nodata_error.
  - intros layer layer_name raster_array. apply read_validated_returns_band.
  - intros layer layer_name raster_array. apply read_validated_accepts.
Qed.

Lemma read_validated_nodata_mismatch_witness :
  (∃ e, _read_array_standarized Scenario.grid11 Scenario.layer_minus_one "layer.tif"
        = Raise e)
  ∧ (∀ raster_array,
       py_gt (aff_e (meta_transform Scenario.layer_minus_one)) f0 = false →
       meta_count Scenario.layer_minus_one = 1 →
       crs_code Scenario.layer_minus_one = Ok (crs Scenario.grid11) →
       read Scenario.layer_minus_one None = Ok raster_array →
       py_eq (py_round (aff_a (meta_transform (reference_raster Scenario.grid11))) 5)
             (py_round (aff_a (meta_transform Scenario.layer_minus_one)) 5) = true →
       _read_array_standarized Scenario.grid11 Scenario.layer_minus_one "layer.tif"
       = Raise (ExceptionF "Raster dont have default no data val. That should be "
                           (FFloat (no_data_val Scenario.grid11))))
  ∧ (∀ layer layer_name raster_array,
       _read_array_standarized Scenario.grid11 layer layer_name = Ok raster_array →
       read layer None = Ok raster_array
       ∧ py_ne_opt (nodata layer) (no_data_val Scenario.grid11) = false)
  ∧ (∀ layer layer_name raster_array,
       py_gt (aff_e (meta_transform layer)) f0 = false →
       meta_count layer = 1 →
       crs_code layer = Ok (crs Scenario.grid11) →
       read layer None = Ok raster_array →
       py_eq (py_round (aff_a (meta_transform (reference_raster Scenario.grid11))) 5)
             (py_round (aff_a (meta_transform layer)) 5) = true →
       py_ne_opt (nodata layer) (no_data_val Scenario.grid11) = false →
       meta_dtype layer = meta_dtype (reference_raster Scenario.grid11) →
       _read_array_standarized Scenario.grid11 layer layer_name = Ok raster_array).
Proof.
  apply (read_validated_nodata_mismatch Scenario.grid11 Scenario.layer_minus_one
           "layer.tif").
  vm_compute. reflexivity.
Defined.

(** The two reads side by side at a layer that declares -1 as no-data, on
    a grid whose sentinel is -9999: the validated read of the second
    version raises the no-data exception, while the converting read of the
    first version ([#converting nodata valye if necessary]) returns the
    array with its -1 cells set to -9999. *)
Lemma read_array_standarized_rewrites_nodata `{Numpy} :
  (rs <- __init__ Scenario.configs (Ok Scenario.reference) ;;
   _read_array_standarized rs Scenario.layer_minus_one "layer.tif")
  = Raise (ExceptionF "Raster dont have default no data val. That should be "
                      (FFloat m9999))
  ∧ read Scenario.layer_minus_one None
    = Ok [[Scenario.fl (-1); Scenario.fl 5]; [Scenario.fl 7; Scenario.fl (-1)]]
  ∧ RasterStandardsLegacy.read_array_standarized
      (RasterStandardsLegacy.__init__ (Scenario.fl 1) 4326 m9999
         (Scenario.fl 1, Scenario.fl 1, Scenario.fl 1, Scenario.fl 1))
      Scenario.layer_minus_one
    = Ok [[m9999; Scenario.fl 5]; [Scenario.fl 7; m9999]].
Proof. repeat split; vm_compute; reflexivity. Qed.

(** The stacking loop reads, in order, the paths [paths_read] lists. *)
Lemma read_tif_loop_paths self fs pairs rasters :
  read_tif_loop self fs pairs rasters =
  (arrays <- mapM (get_raster_array self fs)
               (map fst (filter (fun p => Is_true (endswith p.2 ".tif")) pairs)) ;;
   Ok (rasters ++ arrays)).
Proof.
  revert rasters. induction pairs as [| [filepath filename] rest IH]; intros rasters.
  - simpl. by rewrite app_nil_r.
  - simpl. rewrite filter_cons. simpl.
    destruct (endswith filename ".tif") eqn:E; simpl.
    + destruct (decide (Is_true true)) as [_ | n]; [| by destruct n].
      simpl. destruct (get_raster_array self fs filepath); simpl; [| done].
      rewrite IH. destruct (mapM _ _); simpl; [| done].
      by rewrite <- app_assoc.
    + destruct (decide (Is_true false)) as [[] |]. apply IH.
Qed.

Lemma get_rasters_from_dir_paths self fs dir_path filenames :
  fs_dirs fs !! dir_path = Some filenames →
  get_rasters_from_dir self fs dir_path =
  (arrays <- mapM (get_raster_array self fs) (paths_read dir_path filenames) ;;
   np_stack arrays).
Proof.
  intros Hdir. unfold get_rasters_from_dir, paths_read. rewrite Hdir.
  rewrite read_tif_loop_paths. destruct (mapM _ _); reflexivity.
Qed.

(** No partial result: when reading one of the selected paths fails, so
    does the stacking. *)
Lemma get_rasters_from_dir_aborts self fs dir_path filenames e :
  fs_dirs fs !! dir_path = Some filenames →
  mapM (get_raster_array self fs) (paths_read dir_path filenames) = Raise e →
  get_rasters_from_dir self fs dir_path = Raise e.
Proof.
  intros Hdir Hfail. rewrite (get_rasters_from_dir_paths _ _ _ _ Hdir), Hfail.
  reflexivity.
Qed.

(** C9 (exactly the [.tif] files are read, in sorted order), at a
    directory listed as [b.tif], [a.tiff]: the only path read is
    [rasters/a.tiff], whose name does not end in [.tif], the stack holds
    its array, and [rasters/b.tif] is never read. *)
Theorem get_rasters_from_dir_reads_other_file :
  fs_dirs Scenario.disk !! "rasters" = Some ["b.tif"; "a.tiff"]
  ∧ paths_read "rasters" ["b.tif"; "a.tiff"] = ["rasters/a.tiff"]
  ∧ endswith "a.tiff" ".tif" = false
  ∧ get_rasters_from_dir Scenario.grid11 Scenario.disk "rasters"
    = Ok [Scenario.layer_a].
Proof. repeat split; vm_compute; reflexivity. Qed.

End GridRegistry.

(** ** Coverage extractor *)

Section CoverageExtractor.
Import RasterStandardsV2 RasterInformationCollector.

(** Once the working value differs from the sentinel the walk stops. *)
Lemma walk_loop_valid rs ix iy raster_array i budget w elem arr :
  py_eq elem m9999 = false →
  walk_loop rs ix iy raster_array i budget w elem arr = Ok arr.
Proof. intros Hv. destruct budget; simpl; [done |]. by rewrite Hv. Qed.

(** One iteration that samples a valid cell stores it and ends the walk. *)
Lemma walk_loop_found rs ix iy raster_array i budget w elem arr ix_i iy_i value :
  py_eq elem m9999 = true →
  ix !! i = Some ix_i →
  iy !! i = Some iy_i →
  getitem2 raster_array (- (iy_i + incy (quadrant_steps rs w)))
           (ix_i + incx (quadrant_steps rs w)) = Ok value →
  py_ne value m9999 = true →
  walk_loop rs ix iy raster_array i (S budget) w elem arr = Ok (<[i := value]> arr).
Proof.
  intros He Hix Hiy Hget Hne. simpl. rewrite He. unfold getitem1.
  rewrite Hix, Hiy. simpl. rewrite Hget. simpl. rewrite Hne.
  apply walk_loop_valid. unfold py_ne in Hne. by apply negb_true_iff in Hne.
Qed.

(** With no correction budget the loop over the occurrences changes
    nothing. *)
Lemma treat_loop_no_budget self Long Lat ix iy raster_array indices arr :
  (coorection_limit self <= 0)%Z →
  Forall (fun i => (i < length arr)%nat ∧ (i < length Long)%nat ∧ (i < length Lat)%nat)
         indices →
  treat_loop self Long Lat ix iy raster_array indices arr = Ok arr.
Proof.
  intros Hlim. induction 1 as [| i rest (Ha & Hlo & Hla) _ IH]; simpl; [done |].
  unfold getitem1.
  destruct (lookup_lt_is_Some_2 arr i Ha) as [elem ->].
  destruct (lookup_lt_is_Some_2 Long i Hlo) as [px ->].
  destruct (lookup_lt_is_Some_2 Lat i Hla) as [py ->]. simpl.
  destruct (py_eq elem m9999); [| exact IH].
  replace (Z.to_nat (coorection_limit self)) with 0%nat by lia. simpl. exact IH.
Qed.

(** Correction limit 0: the extracted vector comes back unchanged. *)
Lemma treat_boarder_points_limit_zero self Long Lat ix iy raster_array arr :
  (coorection_limit self <= 0)%Z →
  length Long = length arr →
  length Lat = length arr →
  _treat_boarder_points self Long Lat ix iy raster_array arr = Ok arr.
Proof.
  intros Hlim Hlo Hla. unfold _treat_boarder_points.
  apply treat_loop_no_budget; [done |].
  apply Forall_forall. intros i Hi. apply elem_of_seq in Hi. lia.
Qed.

(** C5 (one iteration moves the point one cell diagonally, so the index
    moves at most one cell per axis per iteration), at the point (8, 5.5) of
    a unit grid centred at (5, 5): the first and the second [if] both fire,
    the point ends at (6, 5.5), and the index offsets after this single
    iteration are -2 on x and 0 on y. *)
Theorem quadrant_steps_moves_two_cells :
  quadrant_steps Scenario.grid11
    {| point_x := Scenario.fl 8; point_y := Scenario.dyadic 11 (-1);
       incx := 0; incy := 0 |}
  = {| point_x := Scenario.fl 6; point_y := Scenario.dyadic 11 (-1);
       incx := -2; incy := 0 |}.
Proof. vm_compute. reflexivity. Qed.

(** C4 (with a valid cell one diagonal step toward the centre, a limit of
    at least 1 returns that value), at the occurrence (8, 5.5) with pixel
    index (8, 6) on a raster whose only valid cell is the diagonal
    neighbour toward the centre, pixel (7, 5), holding 42: the extracted
    value is the sentinel, and the repair returns the sentinel both with
    limit 1 and with limit 10. *)
Theorem treat_boarder_points_misses_diagonal_cell :
  (Scenario.ix, Scenario.iy) = ([8], [6])
  ∧ getitem2 Scenario.coast (- 6) 8 = Ok m9999
  ∧ getitem2 Scenario.coast (- (6 - 1)) (8 - 1) = Ok (Scenario.fl 42)
  ∧ _treat_boarder_points (Scenario.collector 1) Scenario.Long Scenario.Lat
      Scenario.ix Scenario.iy Scenario.coast [m9999] = Ok [m9999]
  ∧ _treat_boarder_points (Scenario.collector 10) Scenario.Long Scenario.Lat
      Scenario.ix Scenario.iy Scenario.coast [m9999] = Ok [m9999].
Proof. repeat split; vm_compute; reflexivity. Qed.

Lemma fill_loop_map mean_value (done_ todo : array1) :
  fold_left
    (fun arr i =>
       match arr !! i with
       | Some elem => if py_eq elem m9999 then <[i := mean_value]> arr else arr
       | None => arr
       end)
    (seq (length done_) (length todo)) (done_ ++ todo)
  = done_ ++ map (fill_value mean_value) todo.
Proof.
  revert done_. induction todo as [| x todo IH]; intros done_; simpl; [done |].
  rewrite list_lookup_middle by done.
  assert (Hstep : (if py_eq x m9999 then <[length done_ := mean_value]> (done_ ++ x :: todo)
                   else done_ ++ x :: todo)
                  = (done_ ++ [fill_value mean_value x]) ++ todo).
  { unfold fill_value. destruct (py_eq x m9999).
    - rewrite insert_app_r_alt by lia. rewrite Nat.sub_diag. simpl.
      by rewrite <- app_assoc.
    - by rewrite <- app_assoc. }
  rewrite Hstep.
  specialize (IH (done_ ++ [fill_value mean_value x])).
  rewrite length_app in IH. simpl in IH. rewrite Nat.add_1_r in IH.
  rewrite IH. by rewrite <- app_assoc.
Qed.

Lemma fill_as_map `{Numpy} (v : array1) :
  _fill_peristent_no_data_values_with_mean v
  = map (fill_value (np_mean (List.filter (fun x => py_ne x m9999) v))) v.
Proof.
  unfold _fill_peristent_no_data_values_with_mean.
  exact (fill_loop_map _ [] v).
Qed.

(** When the mean is itself the sentinel, filling leaves the valid entries
    of the vector the same. *)
Lemma filter_valid_fill mean_value (v : array1) :
  py_eq mean_value m9999 = true →
  List.filter (fun x => py_ne x m9999) (map (fill_value mean_value) v)
  = List.filter (fun x => py_ne x m9999) v.
Proof.
  intros Hm. induction v as [| x v IH]; simpl; [done |].
  assert (Hp : py_ne (fill_value mean_value x) m9999 = py_ne x m9999).
  { unfold fill_value, py_ne. destruct (py_eq x m9999) eqn:Hx.
    - by rewrite Hm.
    - by rewrite Hx. }
  rewrite Hp, IH. destruct (py_ne x m9999) eqn:Hx; [| done].
  f_equal. unfold fill_value. unfold py_ne in Hx.
  apply negb_true_iff in Hx. by rewrite Hx.
Qed.

Lemma fill_value_twice m m' (v : array1) :
  (py_eq m m9999 = true → m' = m) →
  map (fill_value m') (map (fill_value m) v) = map (fill_value m) v.
Proof.
  intros Hm. rewrite map_map. apply map_ext. intros x. unfold fill_value.
  destruct (py_eq x m9999) eqn:Hx.
  - destruct (py_eq m m9999) eqn:Hmm; [by rewrite Hm | done].
  - by rewrite Hx.
Qed.

(** C7: the residual mean fill is idempotent; one application replaces each
    sentinel entry by the mean of the entries that differed from the
    sentinel and leaves the others as they were. *)
Theorem fill_persistent_no_data_idempotent `{Numpy} (v : array1) :
  _fill_peristent_no_data_values_with_mean (_fill_peristent_no_data_values_with_mean v)
  = _fill_peristent_no_data_values_with_mean v
  ∧ _fill_peristent_no_data_values_with_mean v
    = map (fun x => if py_eq x m9999
                    then np_mean (List.filter (fun x => py_ne x m9999) v)
                    else x) v.
Proof.
  split; [| apply fill_as_map].
  rewrite (fill_as_map (_fill_peristent_no_data_values_with_mean v)).
  rewrite (fill_as_map v).
  apply fill_value_twice. intros Hm. by rewrite filter_valid_fill.
Qed.

(** Columns with a different number of occurrence rows cannot be
    concatenated along the covariate axis. *)
Lemma np_concatenate_axis1_rows (a b : array2) :
  length a ≠ length b →
  np_concatenate_axis1 a b = Raise (BuiltinError "ValueError").
Proof.
  intros Hne. unfold np_concatenate_axis1.
  destruct (Nat.eqb_spec (length a) (length b)); [done | reflexivity].
Qed.

(** C10: when a matrix is stored for the species and the concatenation
    fails, the save still returns, and the stored matrix is replaced by the
    new columns alone. *)
Theorem update_coverages_overwrites_on_failure self creatable
    (disk : gmap string array2) species_name numpy_raster_info coverage :
  disk !! npy_path self species_name = Some numpy_raster_info →
  is_ok (np_concatenate_axis1 numpy_raster_info coverage) = false →
  _update_coverages self creatable disk species_name coverage
  = Ok (<[npy_path self species_name := coverage]> disk, coverage)
  ∧ (<[npy_path self species_name := coverage]> disk) !! npy_path self species_name
    = Some coverage.
Proof.
  intros Hstored Hfail. split; [| apply lookup_insert_eq].
  unfold _update_coverages, np_save. rewrite Hstored.
  destruct (np_concatenate_axis1 numpy_raster_info coverage); [discriminate | reflexivity].
Qed.

Lemma update_coverages_overwrites_on_failure_witness :
  _update_coverages (Scenario.collector 10) (λ _, false)
    {[ "out/sp.npy" := Scenario.stored ]} "sp" Scenario.fresh
  = Ok (<[ "out/sp.npy" := Scenario.fresh ]> {[ "out/sp.npy" := Scenario.stored ]},
        Scenario.fresh)
  ∧ (<[ "out/sp.npy" := Scenario.fresh ]>
       ({[ "out/sp.npy" := Scenario.stored ]} : gmap string array2)) !! "out/sp.npy"
    = Some Scenario.fresh.
Proof.
  apply (update_coverages_overwrites_on_failure (Scenario.collector 10) (λ _, false)
           {[ "out/sp.npy" := Scenario.stored ]} "sp" Scenario.stored Scenario.fresh).
  - vm_compute. reflexivity.
  - vm_compute. reflexivity.
Defined.

End CoverageExtractor.

(** ** Modelling pipeline *)

Section ModellingPipeline.
Import RasterStandardsV2 OneClassSVM.

Lemma mapM_length {A B} (f : A → result B) l l' :
  mapM f l = Ok l' → length l' = length l.
Proof.
  revert l'. induction l as [| x l IH]; intros l'; simpl.
  - by intros [= <-].
  - destruct (f x); simpl; [| done].
    destruct (mapM f l) as [ys |]; simpl; [| done].
    intros [= <-]. simpl. f_equal. by apply IH.
Qed.

Lemma mapM_Forall {A B} (f : A → result B) (P : B → Prop) l l' :
  (∀ x y, f x = Ok y → P y) → mapM f l = Ok l' → Forall P l'.
Proof.
  intros Hf. revert l'. induction l as [| x l IH]; intros l'; simpl.
  - intros [= <-]. constructor.
  - destruct (f x) eqn:Hx; simpl; [| done].
    destruct (mapM f l) as [ys |]; simpl; [| done].
    intros [= <-]. constructor; [by eapply Hf | by apply IH].
Qed.

(** After the [isnan] assignment no entry is a [nan]. *)
Lemma nan_to_zero_no_nan (X : array2) :
  Forall (Forall (λ v, isnan v = false)) (nan_to_zero X).
Proof.
  unfold nan_to_zero. apply Forall_forall. intros row Hrow.
  apply list_elem_of_fmap in Hrow as (row0 & -> & _).
  apply Forall_forall. intros v Hv.
  apply list_elem_of_fmap in Hv as (v0 & -> & _).
  by destruct v0.
Qed.

Lemma train_cover_std_no_nan dtype X global_mean global_std M :
  train_cover_std dtype X global_mean global_std = Ok M →
  Forall (Forall (λ v, isnan v = false)) M.
Proof.
  unfold train_cover_std.
  destruct (broadcast2 _ X _); simpl; [| done].
  destruct (broadcast2 _ _ _); simpl; [| done].
  intros [= <-]. apply nan_to_zero_no_nan.
Qed.

(** C8 (the normalised training matrix holds no non-finite entry), at the
    training row (1, 3) with global mean (0, 3) and global standard
    deviation (0, 0): the second entry, 0/0, is set to zero, but the first,
    1/0, reaches the classifier as +infinity. *)
Theorem train_cover_std_keeps_infinity :
  train_cover_std binary32 [[Scenario.fl 1; Scenario.fl 3]]
    [f0; Scenario.fl 3] [f0; f0]
  = Ok [[S754_infinity false; f0]]
  ∧ isfinite (S754_infinity false) = false.
Proof. split; vm_compute; reflexivity. Qed.

Lemma cell_setitem2_eq (Z : array2) r c v :
  is_Some (cell Z r c) → cell (setitem2 Z (r, c) v) r c = Some v.
Proof.
  unfold cell, setitem2. simpl. intros [x Hx].
  apply bind_Some in Hx as (row & Hr & Hc). rewrite Hr.
  rewrite list_lookup_insert_eq by (by eapply lookup_lt_Some). simpl.
  apply list_lookup_insert_eq. by eapply lookup_lt_Some.
Qed.

Lemma cell_setitem2_ne (Z : array2) q v r c :
  (r, c) ≠ q → cell (setitem2 Z q v) r c = cell Z r c.
Proof.
  destruct q as [r' c']. unfold cell, setitem2. simpl. intros Hne.
  destruct (Z !! r') as [row |] eqn:Hr; [| done].
  destruct (decide (r = r')) as [-> | Hrr].
  - rewrite list_lookup_insert_eq by (by eapply lookup_lt_Some). rewrite Hr. simpl.
    apply list_lookup_insert_ne. congruence.
  - by rewrite list_lookup_insert_ne.
Qed.

Lemma cell_setitem2_is_Some (Z : array2) q v r c :
  is_Some (cell Z r c) → is_Some (cell (setitem2 Z q v) r c).
Proof.
  intros Hs. destruct (decide ((r, c) = q)) as [<- | Hne].
  - rewrite cell_setitem2_eq by done. by eexists.
  - by rewrite cell_setitem2_ne.
Qed.

Lemma shape2_setitem2 (Z : array2) q v : shape2 (setitem2 Z q v) = shape2 Z.
Proof.
  destruct q as [r c]. unfold setitem2. simpl.
  destruct (Z !! r) as [row |] eqn:Hr; [| done].
  destruct Z as [| row0 Z]; [done |].
  destruct r; simpl in *.
  - injection Hr as ->. unfold shape2. simpl. by rewrite length_insert.
  - unfold shape2. simpl. by rewrite length_insert.
Qed.

Lemma scatter_fold_shape (pairs : list (nat * nat * float)) (Z : array2) :
  shape2 (fold_left (λ Z p, setitem2 Z p.1 p.2) pairs Z) = shape2 Z.
Proof.
  revert Z. induction pairs as [| p pairs IH]; intros Z; simpl; [done |].
  rewrite IH. apply shape2_setitem2.
Qed.

Lemma scatter_fold_other (pairs : list (nat * nat * float)) (Z : array2) r c :
  (r, c) ∉ pairs.*1 →
  cell (fold_left (λ Z p, setitem2 Z p.1 p.2) pairs Z) r c = cell Z r c.
Proof.
  revert Z. induction pairs as [| p pairs IH]; intros Z Hnot; simpl; [done |].
  simpl in Hnot. apply not_elem_of_cons in Hnot as [Hne Hnot].
  rewrite IH by done. by apply cell_setitem2_ne.
Qed.

Lemma scatter_fold_lookup (idx : list (nat * nat)) (vals : array1) (Z : array2) j r c v :
  NoDup idx →
  idx !! j = Some (r, c) →
  vals !! j = Some v →
  is_Some (cell Z r c) →
  cell (fold_left (λ Z p, setitem2 Z p.1 p.2) (zip idx vals) Z) r c = Some v.
Proof.
  intros Hnd. revert vals Z j. induction Hnd as [| q idx Hq Hnd IH];
    intros vals Z j Hj Hv Hs; [done |].
  destruct vals as [| v0 vals]; [done |]. simpl.
  destruct j as [| j]; simpl in *.
  - injection Hj as ->. injection Hv as ->.
    rewrite scatter_fold_other.
    + by apply cell_setitem2_eq.
    + intros Hin. apply Hq.
      apply list_elem_of_fmap in Hin as ([p w] & Hp & Hin). simpl in Hp. subst p.
      by apply elem_of_zip_l in Hin.
  - eapply IH; eauto. by apply cell_setitem2_is_Some.
Qed.

Lemma where_row_spec p (row : array1) c0 k :
  k ∈ where_row p row c0 ↔
  ∃ i x, k = (c0 + i)%nat ∧ row !! i = Some x ∧ p x = true.
Proof.
  revert c0. induction row as [| y row IH]; intros c0; simpl.
  - split; [by intros ?%elem_of_nil | by intros (i & x & _ & ? & _)].
  - rewrite elem_of_app, IH. split.
    + intros [Hk | (i & x & -> & Hi & Hp)].
      * destruct (p y) eqn:Hy; [| by apply elem_of_nil in Hk].
        apply list_elem_of_singleton in Hk as ->. exists 0%nat, y. split; [lia | done].
      * exists (S i), x. split; [lia | done].
    + intros ([| i] & x & -> & Hi & Hp); simpl in Hi.
      * injection Hi as ->. left. rewrite Hp. rewrite Nat.add_0_r. apply list_elem_of_singleton. done.
      * right. exists i, x. split; [lia | done].
Qed.

Lemma where_row_NoDup p (row : array1) c0 : NoDup (where_row p row c0).
Proof.
  revert c0. induction row as [| y row IH]; intros c0; simpl; [constructor |].
  apply NoDup_app. split_and!.
  - destruct (p y); [apply NoDup_singleton | constructor].
  - intros k Hk Hk'. apply where_row_spec in Hk' as (i & x & -> & _).
    destruct (p y); [| by apply elem_of_nil in Hk].
    apply list_elem_of_singleton in Hk. lia.
  - apply IH.
Qed.

Lemma where_rows_spec p (a : array2) r0 r c :
  (r, c) ∈ where_rows p a r0 ↔
  ∃ i x, r = (r0 + i)%nat ∧ cell a i c = Some x ∧ p x = true.
Proof.
  revert r0. induction a as [| row a IH]; intros r0; simpl.
  - split; [by intros ?%elem_of_nil | by intros (i & x & _ & ? & _)].
  - rewrite elem_of_app, IH. split.
    + intros [Hk | (i & x & -> & Hi & Hp)].
      * apply list_elem_of_fmap in Hk as (k & [= -> ->] & Hk).
        apply where_row_spec in Hk as (i & x & -> & Hi & Hp).
        exists 0%nat, x. split; [lia | done].
      * exists (S i), x. split; [lia | done].
    + intros ([| i] & x & -> & Hi & Hp).
      * left. rewrite Nat.add_0_r. apply list_elem_of_fmap. exists c. split; [done |].
        apply where_row_spec. exists c, x. done.
      * right. exists i, x. split; [lia | done].
Qed.

Lemma where_rows_NoDup p (a : array2) r0 : NoDup (where_rows p a r0).
Proof.
  revert r0. induction a as [| row a IH]; intros r0; simpl; [constructor |].
  apply NoDup_app. split_and!.
  - apply NoDup_fmap_2; [| apply where_row_NoDup]. by intros ?? [= ->].
  - intros [r c] Hk Hk'. apply where_rows_spec in Hk' as (i & x & -> & _).
    apply list_elem_of_fmap in Hk as (k & [= ? ->] & _). lia.
  - apply IH.
Qed.

Lemma np_where_spec p (a : array2) r c :
  (r, c) ∈ np_where p a ↔ ∃ x, cell a r c = Some x ∧ p x = true.
Proof.
  unfold np_where. rewrite where_rows_spec. split.
  - intros (i & x & -> & ?). by exists x.
  - intros (x & ?). by exists r, x.
Qed.

Lemma scatter_fold_is_Some (pairs : list (nat * nat * float)) (Z : array2) r c :
  is_Some (cell Z r c) →
  is_Some (cell (fold_left (λ Z p, setitem2 Z p.1 p.2) pairs Z) r c).
Proof.
  revert Z. induction pairs as [| p pairs IH]; intros Z Hs; simpl; [done |].
  apply IH. by apply cell_setitem2_is_Some.
Qed.

Lemma cell_replicate (height width : nat) (x : float) r c :
  (r < height)%nat → (c < width)%nat →
  cell (replicate height (replicate width x)) r c = Some x.
Proof.
  intros Hr Hc. unfold cell. rewrite lookup_replicate_2 by done. simpl.
  by apply lookup_replicate_2.
Qed.

Lemma shape2_replicate (a : array2) (x : float) :
  shape2 (replicate (shape2 a).1 (replicate (shape2 a).2 x)) = shape2 a.
Proof.
  destruct a as [| row a]; [done |]. unfold shape2. simpl.
  by rewrite !length_replicate.
Qed.

Lemma cell_zip_with (f : float → float → float) (mask Z : array2) r c m z :
  cell mask r c = Some m → cell Z r c = Some z →
  cell (zip_with (zip_with f) mask Z) r c = Some (f m z).
Proof.
  unfold cell. intros (mrow & Hm & Hmc)%bind_Some (zrow & Hz & Hzc)%bind_Some.
  rewrite lookup_zip_with, Hm, Hz. simpl.
  by rewrite lookup_zip_with, Hmc, Hzc.
Qed.

Lemma cell_in_shape {A} (a : list (list A)) r c x :
  rectangular a → cell a r c = Some x →
  (r < (shape2 a).1)%nat ∧ (c < (shape2 a).2)%nat.
Proof.
  unfold cell. intros Hrect (row & Hr & Hc)%bind_Some. split.
  - simpl. by eapply lookup_lt_Some.
  - unfold rectangular in Hrect. rewrite Forall_forall in Hrect.
    rewrite <- (Hrect row) by (by eapply list_elem_of_lookup_2).
    by eapply lookup_lt_Some.
Qed.

Lemma scaled_coverages_land_length self dtype stacked global_mean global_std X :
  scaled_coverages_land self dtype stacked global_mean global_std = Ok X →
  length X = length (land_pixels self).
Proof.
  unfold scaled_coverages_land, gather, fill_with_global_mean, broadcast2.
  destruct (mapM _ (land_pixels self)) as [g |] eqn:Hg; simpl; [| done].
  destruct (_ <=? _)%nat; simpl; [| done].
  destruct (mapM _ (map _ g)) as [ce |] eqn:Hce; simpl; [| done].
  destruct (mapM _ ce) as [sc |] eqn:Hsc; simpl; [| done].
  intros [= <-]. unfold nan_to_zero. rewrite length_map.
  apply mapM_length in Hg, Hce, Hsc. rewrite length_map in Hce. congruence.
Qed.

(** C3, as the code has it: when the land features are built, the
    classifier returns one score per land pixel, at least one pixel is land
    and the mask has the shape of the stack's layers, reconstruction returns
    a raster that holds the no-data sentinel at every pixel whose mask is
    zero, and at every pixel whose mask equals the positive mask value and
    is not zero exactly the score the classifier returned for that pixel. *)
Theorem predict_land_cells self dtype stacked clf global_mean global_std X global_pred :
  scaled_coverages_land self dtype stacked global_mean global_std = Ok X →
  decision_function clf X = Ok global_pred →
  length global_pred = length X →
  land_pixels self ≠ [] →
  rectangular (land_reference self) →
  shape2 (land_reference self) = stack_shape stacked →
  ∃ Z, predict_land self dtype stacked clf global_mean global_std = Ok Z
       ∧ ∀ r c m, cell (land_reference self) r c = Some m →
           (py_eq m f0 = true →
            cell Z r c = Some (no_data_val (raster_standards self)))
           ∧ (py_eq m f0 = false →
              py_eq m (positive_mask_val (raster_standards self)) = true →
              ∃ j score, land_pixels self !! j = Some (r, c)
                         ∧ global_pred !! j = Some score
                         ∧ cell Z r c = Some score).
Proof.
  intros HX Hclf Hlen Hland Hrect Hshape.
  pose proof (scaled_coverages_land_length _ _ _ _ _ _ HX) as HlenX.
  unfold predict_land. rewrite HX. simpl. rewrite Hclf. simpl.
  unfold spatial_predictions.
  destruct global_pred as [| s0 rest] eqn:Hpred.
  { exfalso. apply Hland. apply length_zero_iff_nil. simpl in Hlen. congruence. }
  rewrite <- Hpred in *. assert (Hmin : ∃ lowest, np_min global_pred = Ok lowest).
  { rewrite Hpred. by eexists. }
  destruct Hmin as [lowest ->]. simpl.
  unfold scatter. replace (length global_pred =? length (land_pixels self))%nat with true
    by (symmetry; apply Nat.eqb_eq; congruence).
  simpl. unfold mask_assign. rewrite scatter_fold_shape, <- Hshape, shape2_replicate.
  rewrite bool_decide_eq_true_2 by done.
  eexists. split; [reflexivity |].
  intros r c m Hm.
  destruct (cell_in_shape _ _ _ _ Hrect Hm) as [Hr Hc].
  pose proof (cell_replicate _ _ (fmul binary64 f1 lowest) r c Hr Hc) as HZ0.
  split.
  - intros Hzero.
    destruct (scatter_fold_is_Some (zip (land_pixels self) global_pred) _ r c
                (ex_intro _ _ HZ0)) as [z Hz].
    rewrite (cell_zip_with _ _ _ _ _ _ _ Hm Hz). by rewrite Hzero.
  - intros Hzero Hpos.
    assert (Hin : (r, c) ∈ land_pixels self).
    { apply np_where_spec. by exists m. }
    apply list_elem_of_lookup in Hin as [j Hj].
    destruct (lookup_lt_is_Some_2 global_pred j) as [score Hscore].
    { rewrite Hlen, HlenX. by eapply lookup_lt_Some. }
    exists j, score. split_and!; [done.. |].
    erewrite cell_zip_with; [| exact Hm |].
    2: { eapply scatter_fold_lookup; eauto using where_rows_NoDup. }
    by rewrite Hzero.
Qed.

Lemma predict_land_cells_witness :
  ∃ Z, predict_land Scenario.svm_model binary32 Scenario.covariates
         Scenario.first_feature_clf [f0] [Scenario.fl 1] = Ok Z
       ∧ ∀ r c m, cell (land_reference Scenario.svm_model) r c = Some m →
           (py_eq m f0 = true →
            cell Z r c = Some (no_data_val (raster_standards Scenario.svm_model)))
           ∧ (py_eq m f0 = false →
              py_eq m (positive_mask_val (raster_standards Scenario.svm_model)) = true →
              ∃ j score, land_pixels Scenario.svm_model !! j = Some (r, c)
                         ∧ [Scenario.fl 2; Scenario.fl 6; Scenario.fl 8] !! j = Some score
                         ∧ cell Z r c = Some score).
Proof.
  apply (predict_land_cells Scenario.svm_model binary32 Scenario.covariates
           Scenario.first_feature_clf [f0] [Scenario.fl 1]
           [[Scenario.fl 2]; [Scenario.fl 6]; [Scenario.fl 8]]
           [Scenario.fl 2; Scenario.fl 6; Scenario.fl 8]).
  - vm_compute. reflexivity.
  - vm_compute. reflexivity.
  - reflexivity.
  - vm_compute. discriminate.
  - vm_compute. repeat constructor.
  - vm_compute. reflexivity.
Defined.

(** C3 as stated fails: with a classifier whose score for the land pixel
    (0, 0) is -9999, reconstruction returns a raster in which that pixel,
    whose mask equals the positive mask value, holds the no-data
    sentinel. *)
Lemma predict_land_land_pixel_at_sentinel :
  ∃ Z, predict_land Scenario.svm_model binary32 Scenario.covariates
         Scenario.sentinel_clf [f0] [Scenario.fl 1] = Ok Z
       ∧ cell (land_reference Scenario.svm_model) 0 0
         = Some (positive_mask_val (raster_standards Scenario.svm_model))
       ∧ cell Z 0 0 = Some (no_data_val (raster_standards Scenario.svm_model)).
Proof.
  eexists. split; [vm_compute; reflexivity |].
  split; vm_compute; reflexivity.
Qed.

End ModellingPipeline.

(** ** Fold partition *)

Section FoldPartition.
Import KFold.

Lemma sum_fold_sizes_aux (q r k : nat) :
  sum_list (map (λ j, (q + (if j <? r then 1 else 0))%nat) (seq 0 k))
  = (k * q + Nat.min r k)%nat.
Proof.
  induction k as [| k IH]; [simpl; lia |].
  rewrite seq_S, map_app, sum_list_with_app, IH. simpl.
  destruct (Nat.ltb_spec k r); lia.
Qed.

Lemma sum_fold_sizes (n_splits n_samples : nat) :
  (0 < n_splits)%nat →
  sum_list (fold_sizes n_splits n_samples) = n_samples.
Proof.
  intros Hk. unfold fold_sizes. rewrite sum_fold_sizes_aux.
  pose proof (Nat.mod_upper_bound n_samples n_splits ltac:(lia)).
  pose proof (Nat.div_mod_eq n_samples n_splits). lia.
Qed.

Lemma length_fold_sizes n_splits n_samples :
  length (fold_sizes n_splits n_samples) = n_splits.
Proof. unfold fold_sizes. by rewrite length_map, length_seq. Qed.

Lemma fold_sizes_bounds n_splits n_samples s :
  s ∈ fold_sizes n_splits n_samples →
  (n_samples / n_splits ≤ s ≤ n_samples / n_splits + 1)%nat.
Proof.
  unfold fold_sizes. intros (j & -> & _)%list_elem_of_fmap.
  destruct (j <? _)%nat; lia.
Qed.

Lemma length_chunks sizes (indices : list nat) :
  length (chunks sizes indices) = length sizes.
Proof.
  revert indices. induction sizes as [| s sizes IH]; intros indices; simpl; [done |].
  by rewrite IH.
Qed.

Lemma concat_chunks sizes (indices : list nat) :
  sum_list sizes = length indices →
  concat (chunks sizes indices) = indices.
Proof.
  revert indices. induction sizes as [| s sizes IH]; intros indices Hsum; simpl in *.
  - symmetry. by apply length_zero_iff_nil.
  - rewrite IH; [apply take_drop |]. rewrite length_drop. lia.
Qed.

Lemma chunks_sizes sizes (indices : list nat) :
  (sum_list sizes ≤ length indices)%nat →
  map length (chunks sizes indices) = sizes.
Proof.
  revert indices. induction sizes as [| s sizes IH]; intros indices Hsum; simpl in *; [done |].
  rewrite length_take_le by lia. f_equal. apply IH. rewrite length_drop. lia.
Qed.

(** The test index array of a chunk is a rearrangement of the chunk. *)
Lemma test_indices_perm n_samples (part : list nat) :
  NoDup part → (∀ i, i ∈ part → (i < n_samples)%nat) →
  (fold_of n_samples part).2 ≡ₚ part.
Proof.
  intros Hnd Hin. unfold fold_of. simpl.
  apply NoDup_Permutation; [by apply NoDup_filter, NoDup_seq | done |].
  intros i. rewrite list_elem_of_filter, elem_of_seq. split.
  - by intros [Hi _].
  - intros Hi. split; [done |]. specialize (Hin i Hi). lia.
Qed.

Lemma concat_tests_perm n_samples (parts : list (list nat)) :
  NoDup (concat parts) → (∀ i, i ∈ concat parts → (i < n_samples)%nat) →
  concat (map (fold_of n_samples) parts).*2 ≡ₚ concat parts.
Proof.
  induction parts as [| part parts IH]; simpl; [done |].
  intros (Hnd & _ & Hnds)%NoDup_app Hin.
  apply Permutation_app.
  - apply test_indices_perm; [done |]. intros i Hi. apply Hin, elem_of_app. by left.
  - apply IH; [done |]. intros i Hi. apply Hin, elem_of_app. by right.
Qed.

Lemma train_test_perm n_samples (part : list nat) :
  (fold_of n_samples part).1 ++ (fold_of n_samples part).2 ≡ₚ seq 0 n_samples.
Proof.
  unfold fold_of. simpl. rewrite Permutation_app_comm.
  apply (filter_app_complement (λ i, i ∈ part)).
Qed.

Lemma train_test_disjoint n_samples (part : list nat) i :
  i ∈ (fold_of n_samples part).1 → i ∉ (fold_of n_samples part).2.
Proof.
  unfold fold_of. simpl. rewrite !list_elem_of_filter.
  intros [Hout _] [Hin _]. by apply Hout.
Qed.

Lemma filter_ext_elem_of (P Q : nat → Prop) `{∀ x, Decision (P x)} `{∀ x, Decision (Q x)}
    (l : list nat) :
  (∀ x, x ∈ l → (P x ↔ Q x)) → filter P l = filter Q l.
Proof.
  induction l as [| x l IH]; intros Hext; [done |].
  rewrite !filter_cons.
  rewrite IH by (intros y Hy; apply Hext; by right).
  pose proof (Hext x ltac:(by left)) as H1.
  destruct (decide (P x)) as [HP | HP], (decide (Q x)) as [HQ | HQ];
    [done | by apply H1 in HP | by apply H1 in HQ | done].
Qed.

Lemma train_complement n_samples (part : list nat) :
  (fold_of n_samples part).1
  = filter (λ i, i ∉ (fold_of n_samples part).2) (seq 0 n_samples).
Proof.
  unfold fold_of. simpl. apply filter_ext_elem_of.
  intros i Hi. rewrite list_elem_of_filter. split.
  - intros Hout [Hin _]. by apply Hout.
  - intros Hout Hin. by apply Hout.
Qed.

Lemma elem_of_concat_part (parts : list (list nat)) part i :
  part ∈ parts → i ∈ part → i ∈ concat parts.
Proof.
  induction parts as [| p parts IH]; [by intros ?%elem_of_nil |].
  simpl. intros [-> | Hin]%elem_of_cons Hi; apply elem_of_app; [by left |].
  right. by apply IH.
Qed.

Lemma NoDup_concat_part (parts : list (list nat)) part :
  NoDup (concat parts) → part ∈ parts → NoDup part.
Proof.
  induction parts as [| p parts IH]; [by intros _ ?%elem_of_nil |].
  simpl. intros (? & _ & ?)%NoDup_app [-> | ?]%elem_of_cons; [done | by apply IH].
Qed.

(** C6, for at least two folds: with [2 <= K <= N] the partition yields
    [K] folds; the test partitions together hold every index of
    [0 .. N-1] exactly once; each fold's train set is exactly the indices
    outside its test set, so the two are disjoint and together make up the
    index set; and two test partitions differ in size by at most one. *)
Theorem kfold_partition (shuffle : list nat → list nat) (K N : nat) :
  (∀ l, shuffle l ≡ₚ l) →
  (2 ≤ K)%nat → (K ≤ N)%nat →
  ∃ folds, split shuffle K N = Ok folds
    ∧ length folds = K
    ∧ concat folds.*2 ≡ₚ seq 0 N
    ∧ (∀ train test, (train, test) ∈ folds →
         train = filter (λ i, i ∉ test) (seq 0 N)
         ∧ (∀ i, i ∈ train → i ∉ test)
         ∧ train ++ test ≡ₚ seq 0 N)
    ∧ (∀ a b, a ∈ folds → b ∈ folds → (length a.2 ≤ length b.2 + 1)%nat).
Proof.
  intros Hperm HK HN. unfold split.
  destruct (Nat.leb_spec K 1) as [? | _]; [lia |].
  destruct (Nat.ltb_spec N K) as [? | _]; [lia |].
  eexists. split; [reflexivity |].
  set (parts := chunks (fold_sizes K N) (shuffle (seq 0 N))).
  assert (Hlen : length (shuffle (seq 0 N)) = N).
  { by rewrite (Permutation_length (Hperm _)), length_seq. }
  assert (Hconcat : concat parts = shuffle (seq 0 N)).
  { apply concat_chunks. rewrite sum_fold_sizes by lia. done. }
  assert (Hsizes : map length parts = fold_sizes K N).
  { apply chunks_sizes. rewrite sum_fold_sizes by lia. lia. }
  split_and!.
  - rewrite length_map. unfold parts. by rewrite length_chunks, length_fold_sizes.
  - rewrite concat_tests_perm.
    + by rewrite Hconcat.
    + rewrite Hconcat, (Hperm _). apply NoDup_seq.
    + intros i. rewrite Hconcat, (Hperm _), elem_of_seq. lia.
  - intros train test (part & [= -> ->] & _)%list_elem_of_fmap. split_and!.
    + apply train_complement.
    + apply train_test_disjoint.
    + apply train_test_perm.
  - assert (Hsize : ∀ a, a ∈ map (fold_of N) parts →
                         (N / K ≤ length a.2 ≤ N / K + 1)%nat).
    { intros a (part & -> & Hpart)%list_elem_of_fmap.
      assert (Hpl : length part ∈ fold_sizes K N).
      { rewrite <- Hsizes. apply list_elem_of_fmap. by exists part. }
      assert (Hnd : NoDup part).
      { apply (NoDup_concat_part parts); [| done].
        rewrite Hconcat, (Hperm _). apply NoDup_seq. }
      assert (Hlt : ∀ i, i ∈ part → (i < N)%nat).
      { intros i Hi. assert (Hic : i ∈ concat parts).
        { by eapply elem_of_concat_part. }
        rewrite Hconcat, (Hperm _), elem_of_seq in Hic. lia. }
      rewrite (Permutation_length (test_indices_perm N part Hnd Hlt)).
      by apply fold_sizes_bounds. }
    intros a b Ha Hb. pose proof (Hsize a Ha). pose proof (Hsize b Hb). lia.
Qed.

Lemma kfold_partition_witness :
  ∃ folds, split (@rev nat) 3 8 = Ok folds
    ∧ length folds = 3%nat
    ∧ concat folds.*2 ≡ₚ seq 0 8
    ∧ (∀ train test, (train, test) ∈ folds →
         train = filter (λ i, i ∉ test) (seq 0 8)
         ∧ (∀ i, i ∈ train → i ∉ test)
         ∧ train ++ test ≡ₚ seq 0 8)
    ∧ (∀ a b, a ∈ folds → b ∈ folds → (length a.2 ≤ length b.2 + 1)%nat).
Proof.
  apply (kfold_partition (@rev nat) 3 8).
  - intros l. symmetry. apply Permutation_rev.
  - lia.
  - lia.
Defined.

(** C6 as stated fails for a single fold: with K = 1 and N = 3, so that
    N >= K, no partition is produced. *)
Lemma kfold_single_fold_refused :
  (1 ≤ 3)%nat ∧ split (@rev nat) 1 3 = Raise (BuiltinError "ValueError").
Proof. split; [lia | reflexivity]. Qed.

End FoldPartition.

(** ** Further properties of the grid registry *)

Section GridRegistryMore.
Import RasterStandardsV2 RasterStandardsV2_IO.

(** X1: the validated read returns an array exactly when the vertical
    step is not positive, the band count is neither 0 nor above 1, the CRS
    code is the grid's, the band can be read, the resolution rounded to 5
    places is the reference raster's, a no-data value is declared and
    equals the grid's, and the element type is the reference raster's;
    the array is then the band as read. *)
Theorem read_array_standarized_iff self raster raster_name raster_array :
  _read_array_standarized self raster raster_name = Ok raster_array ↔
  py_gt (aff_e (meta_transform raster)) f0 = false
  ∧ (meta_count raster <= 1 ∧ meta_count raster ≠ 0)
  ∧ crs_code raster = Ok (crs self)
  ∧ read raster None = Ok raster_array
  ∧ py_eq (py_round (aff_a (meta_transform (reference_raster self))) 5)
          (py_round (aff_a (meta_transform raster)) 5) = true
  ∧ (∃ v, nodata raster = Some v ∧ py_eq v (no_data_val self) = true)
  ∧ meta_dtype raster = meta_dtype (reference_raster self).
Proof.
  unfold _read_array_standarized, raise_if, bind. split.
  - destruct (py_gt _ f0) eqn:H1; [done |].
    destruct (1 <? meta_count raster) eqn:H2; [done |].
    destruct (meta_count raster =? 0) eqn:H3; [done |].
    destruct (crs_code raster) as [code |] eqn:H4; [| done].
    destruct (code =? crs self) eqn:H5; simpl; [| done].
    destruct (read raster None) as [band |] eqn:H6; [| done].
    destruct (py_eq (py_round _ 5) _) eqn:H7; simpl; [| done].
    destruct (py_ne_opt _ _) eqn:H8; [done |].
    destruct (String.eqb _ _) eqn:H9; simpl; [| done].
    intros [= <-]. split_and!; try done.
    + lia.
    + lia.
    + apply Z.eqb_eq in H5. by subst.
    + unfold py_ne_opt, py_ne in H8. destruct (nodata raster) as [v |]; [| done].
      exists v. split; [done |]. by apply negb_false_iff in H8.
    + by apply String.eqb_eq.
  - intros (H1 & [H2 H3] & H4 & H6 & H7 & (v & Hv & H8) & H9).
    rewrite H1, H4, H6, H7, Hv, H9. simpl.
    replace (1 <? meta_count raster) with false by (symmetry; apply Z.ltb_ge; lia).
    replace (meta_count raster =? 0) with false by (symmetry; by apply Z.eqb_neq).
    rewrite Z.eqb_refl. simpl. unfold py_ne. rewrite H8. simpl.
    by rewrite String.eqb_refl.
Qed.

Lemma py_eq_nan_r x y : isnan y = true → py_eq x y = false.
Proof. destruct y; try done. intros _. by destruct x. Qed.

Lemma py_eq_nan_l x y : isnan x = true → py_eq x y = false.
Proof. destruct x; try done. Qed.

(** X2: on a grid whose no-data value is [nan], and likewise for a layer
    that declares no no-data value, the validated read never returns an
    array, whatever else the layer is. *)
Theorem read_array_standarized_nan_sentinel self raster raster_name :
  isnan (no_data_val self) = true ∨ nodata raster = None →
  is_ok (_read_array_standarized self raster raster_name) = false.
Proof.
  intros Hcase.
  destruct (_read_array_standarized self raster raster_name) as [a |] eqn:Hread; [| done].
  apply read_validated_returns_band in Hread as [_ Hne].
  destruct Hcase as [Hnan | Hnone].
  - destruct (nodata raster) as [v |]; [| done]. simpl in Hne. unfold py_ne in Hne.
    by rewrite (py_eq_nan_r v _ Hnan) in Hne.
  - by rewrite Hnone in Hne.
Qed.

Lemma read_array_standarized_nan_sentinel_witness :
  is_ok (_read_array_standarized Scenario.grid11
           (Scenario.geotiff None Scenario.layer_a) "a.tif") = false.
Proof.
  apply (read_array_standarized_nan_sentinel Scenario.grid11
           (Scenario.geotiff None Scenario.layer_a) "a.tif").
  right. reflexivity.
Defined.

Lemma filter_zip_none {A} (P : string → bool) (k : list A) (l : list string) :
  Forall (λ f, P f = false) l →
  filter (λ p : A * string, Is_true (P p.2)) (zip k l) = [].
Proof.
  intros Hall. revert k. induction Hall as [| f l Hf _ IH]; intros k.
  - by destruct k.
  - destruct k as [| x k]; [done |]. simpl. rewrite filter_cons. simpl.
    rewrite Hf. destruct (decide (Is_true false)) as [[] |]. apply IH.
Qed.

(** X3: a directory that is missing, empty or without a name ending in
    [.tif] makes the stacking raise [ValueError]; no empty stack is ever
    returned. *)
Theorem get_rasters_from_dir_no_tif self fs dir_path :
  Forall (λ f, endswith f ".tif" = false) (default [] (fs_dirs fs !! dir_path)) →
  get_rasters_from_dir self fs dir_path = Raise (BuiltinError "ValueError").
Proof.
  intros Hall. unfold get_rasters_from_dir.
  destruct (fs_dirs fs !! dir_path) as [filenames |]; simpl in *; [| done].
  rewrite read_tif_loop_paths.
  by rewrite (filter_zip_none (λ f, endswith f ".tif")).
Qed.

Lemma get_rasters_from_dir_no_tif_witness :
  get_rasters_from_dir Scenario.grid11 Scenario2.disk2 "none"
  = Raise (BuiltinError "ValueError").
Proof.
  apply (get_rasters_from_dir_no_tif Scenario.grid11 Scenario2.disk2 "none").
  vm_compute. repeat constructor.
Defined.

Lemma filter_zip_map {A} (P : string → bool) (f : string → A) (l : list string) :
  map fst (filter (λ p : A * string, Is_true (P p.2)) (zip (map f l) l))
  = map f (filter (λ x, Is_true (P x)) l).
Proof.
  induction l as [| x l IH]; [done |]. simpl. rewrite !filter_cons. simpl.
  destruct (decide (Is_true (P x))); simpl; by rewrite IH.
Qed.

(** X4: when the OS lists the directory in sorted order, exactly the
    files whose names end in [.tif] are read, in that order, and
    stacked. *)
Theorem get_rasters_from_dir_sorted_listing self fs dir_path filenames :
  fs_dirs fs !! dir_path = Some filenames →
  sorted (map (os_path_join dir_path) filenames) = map (os_path_join dir_path) filenames →
  get_rasters_from_dir self fs dir_path
  = (arrays <- mapM (get_raster_array self fs)
                 (map (os_path_join dir_path)
                      (filter (λ f, Is_true (endswith f ".tif")) filenames)) ;;
     np_stack arrays).
Proof.
  intros Hdir Hsorted. rewrite (get_rasters_from_dir_paths _ _ _ _ Hdir).
  unfold paths_read.
  by rewrite Hsorted, (filter_zip_map (λ f, endswith f ".tif")).
Qed.

Lemma get_rasters_from_dir_sorted_listing_witness :
  get_rasters_from_dir Scenario.grid11 Scenario2.disk2 "sorted"
  = (arrays <- mapM (get_raster_array Scenario.grid11 Scenario2.disk2)
                 (map (os_path_join "sorted")
                      (filter (λ f, Is_true (endswith f ".tif"))
                              ["a.tif"; "b.txt"; "c.tif"])) ;;
     np_stack arrays).
Proof.
  apply (get_rasters_from_dir_sorted_listing Scenario.grid11 Scenario2.disk2 "sorted"
           ["a.tif"; "b.txt"; "c.tif"]).
  - vm_compute. reflexivity.
  - vm_compute. reflexivity.
Defined.

Lemma length_sorted_insert x l : length (sorted_insert x l) = S (length l).
Proof.
  induction l as [| y l IH]; [done |]. simpl.
  destruct (String.ltb x y); simpl; by rewrite ?IH.
Qed.

Lemma length_sorted l : length (sorted l) = length l.
Proof.
  unfold sorted.
  assert (∀ acc, length (fold_left (λ acc x, sorted_insert x acc) l acc)
                 = (length acc + length l)%nat) as Hgen.
  { induction l as [| x l IH]; intros acc; simpl; [lia |].
    rewrite IH, length_sorted_insert. lia. }
  by rewrite Hgen.
Qed.

Lemma length_filter_zip {A} (P : string → bool) (k : list A) (l : list string) :
  length k = length l →
  length (filter (λ p : A * string, Is_true (P p.2)) (zip k l))
  = length (filter (λ x, Is_true (P x)) l).
Proof.
  revert k. induction l as [| x l IH]; intros [| y k] Hlen; try done.
  simpl. rewrite !filter_cons. simpl.
  destruct (decide (Is_true (P x))); simpl; rewrite IH; auto.
Qed.

Lemma np_stack_ok arrays stack : np_stack arrays = Ok stack → stack = arrays.
Proof.
  unfold np_stack. destruct arrays as [| a rest]; [done |].
  destruct (forallb _ rest); [| done]. by intros [= <-].
Qed.

(** X5: a stack that is returned has one layer for each name of the
    directory listing that ends in [.tif], whatever the order of the
    listing. *)
Theorem get_rasters_from_dir_layers self fs dir_path filenames stack :
  fs_dirs fs !! dir_path = Some filenames →
  get_rasters_from_dir self fs dir_path = Ok stack →
  length stack = length (filter (λ f, Is_true (endswith f ".tif")) filenames).
Proof.
  intros Hdir. rewrite (get_rasters_from_dir_paths _ _ _ _ Hdir).
  destruct (mapM _ _) as [arrays |] eqn:Hread; simpl; [| done].
  intros ->%np_stack_ok. rewrite (mapM_length _ _ _ Hread).
  unfold paths_read. rewrite length_map.
  apply (length_filter_zip (λ f, endswith f ".tif")).
  by rewrite length_sorted, length_map.
Qed.

Lemma get_rasters_from_dir_layers_witness :
  length [Scenario.layer_a; Scenario.layer_b]
  = length (filter (λ f, Is_true (endswith f ".tif")) ["a.tif"; "b.txt"; "c.tif"]).
Proof.
  apply (get_rasters_from_dir_layers Scenario.grid11 Scenario2.disk2 "sorted"
           ["a.tif"; "b.txt"; "c.tif"] [Scenario.layer_a; Scenario.layer_b]).
  - vm_compute. reflexivity.
  - vm_compute. reflexivity.
Defined.

Lemma mapM_fails {A B} (f : A → result B) l x e :
  x ∈ l → f x = Raise e → is_ok (mapM f l) = false.
Proof.
  induction l as [| y l IH]; [by intros ?%elem_of_nil |].
  intros [-> | Hin]%elem_of_cons Hx; simpl.
  - by rewrite Hx.
  - destruct (f y); [| done]. simpl.
    specialize (IH Hin Hx). by destruct (mapM f l).
Qed.

End GridRegistryMore.

Section LandReference.

(** X6: the land-reference read of the second version never resamples:
    once the file is opened and its window read, it returns that window
    unchanged when the configured resolution and the raster's agree to 5
    places, and raises [NameError] when they do not. *)
Theorem get_land_reference_array_mask_no_resampling
    (self : RasterStandardsV2.Raster_Standards) fs land_reference_path raster w raw :
  rasterio_open fs land_reference_path = Ok raster →
  RasterStandardsV2_Mask._get_window_from_extent self (meta_transform raster) = Ok w →
  read raster (Some w) = Ok raw →
  RasterStandardsV2_Mask.get_land_reference_array_mask self fs land_reference_path
  = if py_eq (py_round (RasterStandardsV2.resolution self) 5)
             (py_round (aff_a (meta_transform raster)) 5)
    then Ok raw
    else Raise (BuiltinError "NameError").
Proof.
  intros Hopen Hw Hread. unfold RasterStandardsV2_Mask.get_land_reference_array_mask.
  rewrite Hopen. simpl. rewrite Hw. simpl. rewrite Hread. simpl.
  unfold RasterStandardsV2_Mask._reescale. by destruct (py_eq _ _).
Qed.

Lemma get_land_reference_array_mask_no_resampling_witness :
  RasterStandardsV2_Mask.get_land_reference_array_mask Scenario.grid11 Scenario2.disk2
    "plain.tif"
  = if py_eq (py_round (RasterStandardsV2.resolution Scenario.grid11) 5)
             (py_round (aff_a (meta_transform
                                 (Scenario.geotiff (Some m9999) Scenario2.plain))) 5)
    then Ok Scenario2.plain
    else Raise (BuiltinError "NameError").
Proof.
  apply (get_land_reference_array_mask_no_resampling Scenario.grid11 Scenario2.disk2
           "plain.tif" (Scenario.geotiff (Some m9999) Scenario2.plain)
           ((0, 11), (0, 11)) Scenario2.plain).
  - vm_compute. reflexivity.
  - vm_compute. reflexivity.
  - vm_compute. reflexivity.
Defined.

(** X7: the land-reference read of the first version never returns an
    array: every call raises. *)
Theorem legacy_get_land_reference_array_mask_raises
    (self : RasterStandardsLegacy.Raster_Standards) fs land_reference_path :
  is_ok (RasterStandardsLegacy_Mask.get_land_reference_array_mask self fs
           land_reference_path) = false.
Proof.
  unfold RasterStandardsLegacy_Mask.get_land_reference_array_mask.
  destruct (rasterio_open _ _); simpl; [| done].
  destruct (RasterStandardsLegacy._get_window_from_extent _ _); simpl; [| done].
  by destruct (read _ _).
Qed.

(** X8: the standardising read of the first version never resamples
    either: once the window is read, a layer whose resolution differs from
    the grid's (to 5 places) raises [AttributeError]. *)
Theorem legacy_read_no_resampling (self : RasterStandardsLegacy.Raster_Standards)
    raster w raw :
  RasterStandardsLegacy._get_window_from_extent self (meta_transform raster) = Ok w →
  read raster (Some w) = Ok raw →
  py_eq (py_round (RasterStandardsLegacy.resolution self) 5)
        (py_round (aff_a (meta_transform raster)) 5) = false →
  RasterStandardsLegacy.read_array_standarized self raster
  = Raise (BuiltinError "AttributeError").
Proof.
  intros Hw Hread Hres. unfold RasterStandardsLegacy.read_array_standarized.
  rewrite Hw. simpl. rewrite Hread. simpl. by rewrite Hres.
Qed.

Lemma legacy_read_no_resampling_witness :
  RasterStandardsLegacy.read_array_standarized Scenario2.legacy_grid Scenario2.half_layer
  = Raise (BuiltinError "AttributeError").
Proof.
  apply (legacy_read_no_resampling Scenario2.legacy_grid Scenario2.half_layer
           ((0, 4), (0, 4)) Scenario.layer_a).
  - vm_compute. reflexivity.
  - reflexivity.
  - vm_compute. reflexivity.
Defined.

Lemma rewrite_nodata_same nodata no_data_val (a : array2) :
  (∀ v x, nodata = Some v → py_eq x v = false) →
  RasterStandardsLegacy.rewrite_nodata nodata no_data_val a = a.
Proof.
  intros Hno. unfold RasterStandardsLegacy.rewrite_nodata.
  induction a as [| row a IH]; [done |]. simpl. rewrite IH. f_equal.
  clear IH. induction row as [| x row IH]; [done |]. simpl. rewrite IH. f_equal.
  destruct nodata as [v |]; [| done]. by rewrite (Hno v x).
Qed.

(** X9: the standardising read of the first version rewrites nothing in
    a layer that declares [nan], or nothing at all, as its no-data value:
    what it returns is the window as read. *)
Theorem legacy_read_keeps_nan_cells (self : RasterStandardsLegacy.Raster_Standards)
    raster a :
  nodata raster = None ∨ (∃ v, nodata raster = Some v ∧ isnan v = true) →
  RasterStandardsLegacy.read_array_standarized self raster = Ok a →
  ∃ w, RasterStandardsLegacy._get_window_from_extent self (meta_transform raster) = Ok w
       ∧ read raster (Some w) = Ok a.
Proof.
  intros Hcase. unfold RasterStandardsLegacy.read_array_standarized.
  destruct (RasterStandardsLegacy._get_window_from_extent _ _) as [w |]; simpl; [| done].
  destruct (read raster (Some w)) as [raw |] eqn:Hread; simpl; [| done].
  destruct (negb _); simpl; [done |].
  intros [= <-]. exists w. split; [done |]. rewrite Hread. f_equal.
  destruct (py_ne_opt _ _); [| done]. symmetry. apply rewrite_nodata_same.
  intros v x Hv. destruct Hcase as [Hnone | (v' & Hv' & Hnan)]; [congruence |].
  rewrite Hv in Hv'. injection Hv' as ->. by apply py_eq_nan_r.
Qed.

Lemma legacy_read_keeps_nan_cells_witness :
  ∃ w, RasterStandardsLegacy._get_window_from_extent Scenario2.legacy_grid
         (meta_transform Scenario2.nan_layer) = Ok w
       ∧ read Scenario2.nan_layer (Some w) = Ok Scenario2.nan_cells.
Proof.
  apply (legacy_read_keeps_nan_cells Scenario2.legacy_grid Scenario2.nan_layer
           Scenario2.nan_cells).
  - right. exists S754_nan. split; reflexivity.
  - vm_compute. reflexivity.
Defined.

End LandReference.

(** ** Further properties of the coverage extractor *)

Section CoverageExtractorMore.
Import RasterStandardsV2 RasterInformationCollector.

(** A walk returns the vector it was given, or that vector with its own
    entry set to a value that differs from the sentinel. *)
Lemma walk_loop_result rs ix iy raster_array i budget w elem arr arr' :
  walk_loop rs ix iy raster_array i budget w elem arr = Ok arr' →
  arr' = arr ∨ ∃ v, py_ne v m9999 = true ∧ arr' = <[i := v]> arr.
Proof.
  revert w elem arr. induction budget as [| budget IH]; intros w elem arr; simpl.
  - intros [= <-]. by left.
  - destruct (py_eq elem m9999); [| intros [= <-]; by left].
    destruct (getitem1 ix i) as [ix_i |]; simpl; [| done].
    destruct (getitem1 iy i) as [iy_i |]; simpl; [| done].
    destruct (getitem2 raster_array _ _) as [value |]; simpl; [| done].
    destruct (py_ne value m9999) eqn:Hne.
    + rewrite walk_loop_valid by (by apply negb_true_iff in Hne).
      intros [= <-]. right. by exists value.
    + apply IH.
Qed.

Lemma treat_loop_entries self Long Lat ix iy raster_array indices arr res :
  treat_loop self Long Lat ix iy raster_array indices arr = Ok res →
  length res = length arr
  ∧ ∀ j x, arr !! j = Some x →
      res !! j = Some x
      ∨ (py_eq x m9999 = true ∧ ∃ y, res !! j = Some y ∧ py_ne y m9999 = true).
Proof.
  revert arr. induction indices as [| i rest IH]; intros arr; simpl.
  - intros [= <-]. split; [done |]. intros j x Hx. by left.
  - unfold getitem1 at 1. destruct (arr !! i) as [elem |] eqn:Hi; simpl; [| done].
    destruct (py_eq elem m9999) eqn:Helem; [| apply IH].
    destruct (getitem1 Long i) as [px |]; simpl; [| done].
    destruct (getitem1 Lat i) as [py |]; simpl; [| done].
    destruct (walk_loop _ _ _ _ _ _ _ _ _) as [arr1 |] eqn:Hwalk; simpl; [| done].
    intros Hrest. destruct (IH _ Hrest) as [Hlen Hent].
    apply walk_loop_result in Hwalk as [-> | (v & Hv & ->)]; [by split |].
    split; [by rewrite Hlen, length_insert |].
    intros j x Hx. destruct (decide (j = i)) as [-> | Hji].
    + assert (x = elem) as -> by congruence.
      assert (Hvi : <[i := v]> arr !! i = Some v).
      { apply list_lookup_insert_eq. by eapply lookup_lt_Some. }
      destruct (Hent i v Hvi) as [Hres | (Hbad & _)].
      * right. split; [done |]. by exists v.
      * unfold py_ne in Hv. by rewrite Hbad in Hv.
    + apply Hent. by rewrite list_lookup_insert_ne.
Qed.

(** X10: the border repair keeps the vector's length, never changes an
    entry that differed from the sentinel, and whatever it puts in place
    of a sentinel entry differs from the sentinel. *)
Theorem treat_boarder_points_entries self Long Lat ix iy raster_array arr res :
  _treat_boarder_points self Long Lat ix iy raster_array arr = Ok res →
  length res = length arr
  ∧ ∀ j x, arr !! j = Some x →
      res !! j = Some x
      ∨ (py_eq x m9999 = true ∧ ∃ y, res !! j = Some y ∧ py_ne y m9999 = true).
Proof. apply treat_loop_entries. Qed.

Lemma treat_boarder_points_entries_witness :
  length [Scenario.fl 42; m9999] = length [m9999; m9999]
  ∧ ∀ j x, [m9999; m9999] !! j = Some x →
      [Scenario.fl 42; m9999] !! j = Some x
      ∨ (py_eq x m9999 = true
         ∧ ∃ y, [Scenario.fl 42; m9999] !! j = Some y ∧ py_ne y m9999 = true).
Proof.
  apply (treat_boarder_points_entries (Scenario.collector 10)
           [Scenario.fl 8; Scenario.fl 3] [Scenario.dyadic 11 (-1); Scenario.fl 2]
           [8; 3] [6; 2] Scenario2.shore [m9999; m9999] [Scenario.fl 42; m9999]).
  vm_compute. reflexivity.
Defined.

Lemma treat_loop_all_valid self Long Lat ix iy raster_array indices arr :
  Forall (λ x, py_eq x m9999 = false) arr →
  Forall (λ i, (i < length arr)%nat) indices →
  treat_loop self Long Lat ix iy raster_array indices arr = Ok arr.
Proof.
  intros Hvalid. induction 1 as [| i rest Hi _ IH]; simpl; [done |].
  unfold getitem1. destruct (lookup_lt_is_Some_2 arr i Hi) as [elem Helem].
  rewrite Helem. simpl.
  rewrite Forall_forall in Hvalid.
  rewrite (Hvalid elem) by (by eapply list_elem_of_lookup_2). exact IH.
Qed.

(** X11: a vector without sentinel entry comes back unchanged, and
    neither the coordinates, the indices nor the raster are consulted:
    the call succeeds even when they are empty. *)
Theorem treat_boarder_points_nothing_to_repair self Long Lat ix iy raster_array arr :
  Forall (λ x, py_eq x m9999 = false) arr →
  _treat_boarder_points self Long Lat ix iy raster_array arr = Ok arr.
Proof.
  intros Hvalid. apply treat_loop_all_valid; [done |].
  apply Forall_forall. intros i Hi. apply elem_of_seq in Hi. lia.
Qed.

Lemma treat_boarder_points_nothing_to_repair_witness :
  _treat_boarder_points (Scenario.collector 10) [] [] [] [] []
    [Scenario.fl 3; Scenario.fl 42]
  = Ok [Scenario.fl 3; Scenario.fl 42].
Proof.
  apply (treat_boarder_points_nothing_to_repair (Scenario.collector 10) [] [] [] [] []
           [Scenario.fl 3; Scenario.fl 42]).
  repeat constructor.
Defined.

Lemma treat_loop_first_sample self Long Lat ix iy raster_array before i after
    arr res elem px py ix_i iy_i v :
  i ∉ before →
  arr !! i = Some elem → py_eq elem m9999 = true →
  Long !! i = Some px → Lat !! i = Some py →
  ix !! i = Some ix_i → iy !! i = Some iy_i →
  1 <= coorection_limit self →
  (let w1 := quadrant_steps (raster_standards self)
               {| point_x := px; point_y := py; incx := 0; incy := 0 |} in
   getitem2 raster_array (- (iy_i + incy w1)) (ix_i + incx w1) = Ok v) →
  py_ne v m9999 = true →
  treat_loop self Long Lat ix iy raster_array (before ++ i :: after) arr = Ok res →
  res !! i = Some v.
Proof.
  intros Hnot Hi Helem Hpx Hpy Hix Hiy Hlim Hget Hv. revert arr Hi.
  induction before as [| j before IH]; intros arr Hi; simpl.
  - unfold getitem1. rewrite Hi, Hpx, Hpy. simpl. rewrite Helem.
    destruct (Z.to_nat (coorection_limit self)) as [| budget] eqn:Hb; [lia |].
    rewrite (walk_loop_found _ _ _ _ _ _ _ _ _ ix_i iy_i v Helem Hix Hiy Hget Hv).
    simpl. intros Hrest. apply treat_loop_entries in Hrest as [_ Hent].
    assert (Hvi : <[i := v]> arr !! i = Some v).
    { apply list_lookup_insert_eq. by eapply lookup_lt_Some. }
    destruct (Hent i v Hvi) as [Hres | (Hbad & _)]; [done |].
    unfold py_ne in Hv. by rewrite Hbad in Hv.
  - apply not_elem_of_cons in Hnot as [Hji Hnot].
    unfold getitem1 at 1. destruct (arr !! j) as [ej |]; simpl; [| done].
    destruct (py_eq ej m9999); [| by apply IH].
    destruct (getitem1 Long j); simpl; [| done].
    destruct (getitem1 Lat j); simpl; [| done].
    destruct (walk_loop _ _ _ _ _ _ _ _ _) as [arr1 |] eqn:Hwalk; simpl; [| done].
    apply IH; [done |].
    apply walk_loop_result in Hwalk as [-> | (y & _ & ->)]; [done |].
    by rewrite list_lookup_insert_ne.
Qed.

(** X12: the repair stops at the first valid sample: when the cell
    sampled by the first iteration for a sentinel entry holds a value that
    differs from the sentinel, and the limit is at least 1, that value is
    what a successful repair returns for the entry. *)
Theorem treat_boarder_points_first_sample self Long Lat ix iy raster_array
    arr res i elem px py ix_i iy_i v :
  arr !! i = Some elem → py_eq elem m9999 = true →
  Long !! i = Some px → Lat !! i = Some py →
  ix !! i = Some ix_i → iy !! i = Some iy_i →
  1 <= coorection_limit self →
  (let w1 := quadrant_steps (raster_standards self)
               {| point_x := px; point_y := py; incx := 0; incy := 0 |} in
   getitem2 raster_array (- (iy_i + incy w1)) (ix_i + incx w1) = Ok v) →
  py_ne v m9999 = true →
  _treat_boarder_points self Long Lat ix iy raster_array arr = Ok res →
  res !! i = Some v.
Proof.
  intros Hi Helem Hpx Hpy Hix Hiy Hlim Hget Hv. unfold _treat_boarder_points.
  assert (Hlt : (i < length arr)%nat) by (by eapply lookup_lt_Some).
  replace (seq 0 (length arr))
    with (seq 0 i ++ i :: seq (S i) (length arr - S i)).
  - apply (treat_loop_first_sample _ _ _ _ _ _ _ _ _ _ _ elem px py ix_i iy_i v);
      try done.
    rewrite elem_of_seq. lia.
  - change (i :: seq (S i) (length arr - S i)) with (seq i (S (length arr - S i))).
    rewrite <- (Nat.add_0_l i) at 2. rewrite <- seq_app. f_equal. lia.
Qed.

Lemma treat_boarder_points_first_sample_witness :
  [Scenario.fl 42] !! 0%nat = Some (Scenario.fl 42).
Proof.
  apply (treat_boarder_points_first_sample (Scenario.collector 1)
           Scenario.Long Scenario.Lat Scenario.ix Scenario.iy Scenario2.shore
           [m9999] [Scenario.fl 42] 0%nat m9999
           (Scenario.fl 8) (Scenario.dyadic 11 (-1)) 8 6 (Scenario.fl 42)).
  - reflexivity.
  - reflexivity.
  - reflexivity.
  - reflexivity.
  - reflexivity.
  - reflexivity.
  - vm_compute. discriminate.
  - vm_compute. reflexivity.
  - reflexivity.
  - vm_compute. reflexivity.
Defined.

Lemma quadrant_steps_sum rs w :
  ∃ k, incx (quadrant_steps rs w) + incy (quadrant_steps rs w)
       = incx w + incy w + 2 * k.
Proof.
  unfold quadrant_steps.
  destruct (_ && _); simpl; destruct (_ && _); simpl;
    destruct (_ && _); simpl; destruct (_ && _); simpl;
    match goal with
    | |- ∃ k, ?l = ?a + ?b + 2 * k =>
        first [ exists 0; lia | exists 1; lia | exists (-1); lia
              | exists 2; lia | exists (-2); lia ]
    end.
Qed.

(** X13: the offsets the walk accumulates always have an even sum: after
    any number of iterations from the occurrence's own cell, the cell to
    sample is never its direct neighbour to the north, south, east or
    west. *)
Theorem quadrant_steps_even_offsets rs px py n :
  let w := Nat.iter n (quadrant_steps rs)
             {| point_x := px; point_y := py; incx := 0; incy := 0 |} in
  Z.even (incx w + incy w) = true
  ∧ (incx w, incy w) ≠ (1, 0) ∧ (incx w, incy w) ≠ (-1, 0)
  ∧ (incx w, incy w) ≠ (0, 1) ∧ (incx w, incy w) ≠ (0, -1).
Proof.
  simpl.
  assert (Heven : Z.even (incx (Nat.iter n (quadrant_steps rs)
                     {| point_x := px; point_y := py; incx := 0; incy := 0 |})
                   + incy (Nat.iter n (quadrant_steps rs)
                     {| point_x := px; point_y := py; incx := 0; incy := 0 |})) = true).
  { induction n as [| n IH]; [done |]. simpl.
    destruct (quadrant_steps_sum rs (Nat.iter n (quadrant_steps rs)
                {| point_x := px; point_y := py; incx := 0; incy := 0 |})) as [k ->].
    rewrite Z.even_add_mul_2. exact IH. }
  split; [exact Heven |].
  split_and!; intros [= Hx Hy]; rewrite Hx, Hy in Heven; discriminate.
Qed.

(** X14: a point north-east of the centre that is still strictly
    north-east of it after one resolution step on each axis is moved by
    exactly one cell diagonally toward the centre. *)
Theorem quadrant_steps_north_east rs w :
  py_ge (point_x w) (x_center_point rs) = true →
  py_ge (point_y w) (y_center_point rs) = true →
  py_le (fsub binary64 (point_x w) (resolution rs)) (x_center_point rs) = false →
  py_le (fsub binary64 (point_y w) (resolution rs)) (y_center_point rs) = false →
  quadrant_steps rs w
  = {| point_x := fsub binary64 (point_x w) (resolution rs);
       point_y := fsub binary64 (point_y w) (resolution rs);
       incx := incx w - 1;
       incy := incy w - 1 |}.
Proof.
  intros Hx Hy Hx' Hy'. unfold quadrant_steps. cbv zeta. rewrite Hx, Hy.
  cbn [andb point_x point_y incx incy]. rewrite Hy', andb_false_r.
  cbn [andb point_x point_y incx incy]. rewrite Hx'.
  cbn [andb point_x point_y incx incy]. by rewrite Hx'.
Qed.

Lemma quadrant_steps_north_east_witness :
  quadrant_steps Scenario.grid11
    {| point_x := Scenario.fl 8; point_y := Scenario.fl 8; incx := 0; incy := 0 |}
  = {| point_x := fsub binary64 (Scenario.fl 8) (resolution Scenario.grid11);
       point_y := fsub binary64 (Scenario.fl 8) (resolution Scenario.grid11);
       incx := 0 - 1;
       incy := 0 - 1 |}.
Proof.
  apply (quadrant_steps_north_east Scenario.grid11
           {| point_x := Scenario.fl 8; point_y := Scenario.fl 8;
              incx := 0; incy := 0 |}).
  - reflexivity.
  - reflexivity.
  - reflexivity.
  - reflexivity.
Defined.

(** X15: a point strictly north-west of the centre is always moved by
    exactly one cell diagonally toward the centre, however close to the
    centre lines it is. *)
Theorem quadrant_steps_north_west rs w :
  py_ge (point_x w) (x_center_point rs) = false →
  py_le (point_x w) (x_center_point rs) = true →
  py_ge (point_y w) (y_center_point rs) = true →
  py_le (point_y w) (y_center_point rs) = false →
  quadrant_steps rs w
  = {| point_x := fadd binary64 (point_x w) (resolution rs);
       point_y := fsub binary64 (point_y w) (resolution rs);
       incx := incx w + 1;
       incy := incy w - 1 |}.
Proof.
  intros Hx Hx' Hy Hy'. unfold quadrant_steps. cbv zeta.
  repeat (first [rewrite Hx | rewrite Hx' | rewrite Hy | rewrite Hy'];
          cbn [andb point_x point_y incx incy]).
  reflexivity.
Qed.

Lemma quadrant_steps_north_west_witness :
  quadrant_steps Scenario.grid11
    {| point_x := Scenario.fl 2; point_y := Scenario.dyadic 11 (-1);
       incx := 0; incy := 0 |}
  = {| point_x := fadd binary64 (Scenario.fl 2) (resolution Scenario.grid11);
       point_y := fsub binary64 (Scenario.dyadic 11 (-1)) (resolution Scenario.grid11);
       incx := 0 + 1;
       incy := 0 - 1 |}.
Proof.
  apply (quadrant_steps_north_west Scenario.grid11
           {| point_x := Scenario.fl 2; point_y := Scenario.dyadic 11 (-1);
              incx := 0; incy := 0 |}).
  - reflexivity.
  - reflexivity.
  - reflexivity.
  - reflexivity.
Defined.

(** X16: when the mean of the valid entries differs from the sentinel,
    the residual fill leaves no sentinel in the vector, keeps its length
    and keeps every entry that differed from the sentinel. *)
Theorem fill_leaves_no_sentinel `{Numpy} (v : array1) :
  py_eq (np_mean (List.filter (λ x, py_ne x m9999) v)) m9999 = false →
  Forall (λ x, py_eq x m9999 = false) (_fill_peristent_no_data_values_with_mean v)
  ∧ length (_fill_peristent_no_data_values_with_mean v) = length v
  ∧ ∀ j x, v !! j = Some x → py_eq x m9999 = false →
      _fill_peristent_no_data_values_with_mean v !! j = Some x.
Proof.
  intros Hmean. rewrite fill_as_map. split_and!.
  - apply Forall_forall. intros y (x & -> & _)%list_elem_of_fmap.
    unfold fill_value. by destruct (py_eq x m9999) eqn:Hx.
  - by rewrite length_map.
  - intros j x Hj Hx. rewrite list_lookup_fmap, Hj. simpl.
    unfold fill_value. by rewrite Hx.
Qed.

Lemma fill_leaves_no_sentinel_witness :
  Forall (λ x, py_eq x m9999 = false)
    (@_fill_peristent_no_data_values_with_mean Scenario2.example_numpy
       [Scenario.fl 3; m9999])
  ∧ length (@_fill_peristent_no_data_values_with_mean Scenario2.example_numpy
              [Scenario.fl 3; m9999])
    = length [Scenario.fl 3; m9999]
  ∧ ∀ j x, [Scenario.fl 3; m9999] !! j = Some x → py_eq x m9999 = false →
      @_fill_peristent_no_data_values_with_mean Scenario2.example_numpy
        [Scenario.fl 3; m9999] !! j = Some x.
Proof.
  apply (@fill_leaves_no_sentinel Scenario2.example_numpy [Scenario.fl 3; m9999]).
  vm_compute. reflexivity.
Defined.

(** X17: when a matrix with as many rows is stored for the species, the
    save keeps it and appends the new columns row by row: every stored row
    starts with the old row and continues with the new one. *)
Theorem update_coverages_appends self creatable (disk : gmap string array2)
    species_name numpy_raster_info coverage :
  disk !! npy_path self species_name = Some numpy_raster_info →
  length numpy_raster_info = length coverage →
  _update_coverages self creatable disk species_name coverage
  = Ok (<[npy_path self species_name := zip_with app numpy_raster_info coverage]> disk,
        zip_with app numpy_raster_info coverage)
  ∧ ∀ j old new, numpy_raster_info !! j = Some old → coverage !! j = Some new →
      zip_with app numpy_raster_info coverage !! j = Some (old ++ new).
Proof.
  intros Hstored Hrows. split.
  - unfold _update_coverages, np_save, np_concatenate_axis1.
    rewrite Hstored, Hrows. by rewrite Nat.eqb_refl.
  - intros j old new Hold Hnew. by rewrite lookup_zip_with, Hold, Hnew.
Qed.

Lemma update_coverages_appends_witness :
  _update_coverages (Scenario.collector 10) (λ _, false)
    {[ "out/sp.npy" := Scenario.stored ]} "sp"
    [[Scenario.fl 7]; [Scenario.fl 8]; [Scenario.fl 9]]
  = Ok (<[npy_path (Scenario.collector 10) "sp" :=
            zip_with app Scenario.stored
              [[Scenario.fl 7]; [Scenario.fl 8]; [Scenario.fl 9]]]>
          {[ "out/sp.npy" := Scenario.stored ]},
        zip_with app Scenario.stored [[Scenario.fl 7]; [Scenario.fl 8]; [Scenario.fl 9]])
  ∧ ∀ j old new, Scenario.stored !! j = Some old →
      [[Scenario.fl 7]; [Scenario.fl 8]; [Scenario.fl 9]] !! j = Some new →
      zip_with app Scenario.stored [[Scenario.fl 7]; [Scenario.fl 8]; [Scenario.fl 9]] !! j
      = Some (old ++ new).
Proof.
  apply (update_coverages_appends (Scenario.collector 10) (λ _, false)
           {[ "out/sp.npy" := Scenario.stored ]} "sp" Scenario.stored
           [[Scenario.fl 7]; [Scenario.fl 8]; [Scenario.fl 9]]).
  - vm_compute. reflexivity.
  - reflexivity.
Defined.


(** X19: the save is not idempotent: saving the same columns a second
    time for a species that had no file, in a directory where the file can
    be created, stores every column twice. *)
Theorem update_coverages_twice self creatable (disk : gmap string array2)
    species_name coverage :
  disk !! npy_path self species_name = None →
  creatable (npy_path self species_name) = true →
  ∃ disk1,
    _update_coverages self creatable disk species_name coverage = Ok (disk1, coverage)
    ∧ disk1 !! npy_path self species_name = Some coverage
    ∧ _update_coverages self creatable disk1 species_name coverage
      = Ok (<[npy_path self species_name := zip_with app coverage coverage]> disk1,
            zip_with app coverage coverage).
Proof.
  intros Hnone Hcreate. eexists. split_and!.
  - unfold _update_coverages, np_save. rewrite Hnone. simpl.
    rewrite Hcreate. reflexivity.
  - apply lookup_insert_eq.
  - unfold _update_coverages, np_save, np_concatenate_axis1.
    rewrite lookup_insert_eq. simpl. by rewrite Nat.eqb_refl.
Qed.

Lemma update_coverages_twice_witness :
  ∃ disk1,
    _update_coverages (Scenario.collector 10) (String.prefix "out/") ∅ "sp"
      Scenario.fresh
    = Ok (disk1, Scenario.fresh)
    ∧ disk1 !! npy_path (Scenario.collector 10) "sp" = Some Scenario.fresh
    ∧ _update_coverages (Scenario.collector 10) (String.prefix "out/") disk1 "sp"
        Scenario.fresh
      = Ok (<[npy_path (Scenario.collector 10) "sp" :=
                zip_with app Scenario.fresh Scenario.fresh]> disk1,
            zip_with app Scenario.fresh Scenario.fresh).
Proof.
  apply (update_coverages_twice (Scenario.collector 10) (String.prefix "out/") ∅ "sp"
           Scenario.fresh).
  - vm_compute. reflexivity.
  - reflexivity.
Defined.

End CoverageExtractorMore.

(** ** Properties of the extraction run *)

Section ExtractionRun.
Import RasterStandardsV2 RasterStandardsV2_IO RasterInformationCollector.
Import RasterInformationCollector_Save.

Lemma take_points_length raster_array iy ix v :
  take_points raster_array iy ix = Ok v → length v = length ix.
Proof.
  unfold take_points. destruct (_ =? _)%nat eqn:Hlen; [| done].
  apply Nat.eqb_eq in Hlen. intros Hv%mapM_length.
  rewrite Hv, length_zip_with. lia.
Qed.

Lemma layer_values_length `{Numpy} self fs Long Lat ix iy fp v :
  layer_values self fs Long Lat ix iy fp = Ok v → length v = length ix.
Proof.
  unfold layer_values.
  destruct (get_raster_array _ _ _) as [raster_array |]; simpl; [| done].
  destruct (take_points _ _ _) as [taken |] eqn:Htaken; simpl; [| done].
  destruct (_treat_boarder_points _ _ _ _ _ _ _) as [treated |] eqn:Htreat;
    simpl; [| done].
  intros [= <-]. rewrite fill_as_map, length_map.
  apply treat_loop_entries in Htreat as [-> _].
  by eapply take_points_length.
Qed.

Lemma np_stack1_ok arrays stacked :
  np_stack1 arrays = Ok stacked → stacked = arrays ∧ arrays ≠ [].
Proof.
  unfold np_stack1. destruct arrays as [| a rest]; [done |].
  destruct (forallb _ rest); [| done]. by intros [= <-].
Qed.

Lemma column_lookup (a : array2) j i :
  Forall (λ row : array1, (j < length row)%nat) a →
  column j a !! i = a !! i ≫= (λ row, row !! j).
Proof.
  unfold column. intros Hall. revert i.
  induction Hall as [| row a Hrow _ IH]; intros i; [done |]. simpl.
  destruct (lookup_lt_is_Some_2 row j Hrow) as [x Hx]. rewrite Hx.
  destruct i as [| i]; simpl; [done | apply IH].
Qed.

Lemma column_length (a : array2) j :
  Forall (λ row : array1, (j < length row)%nat) a → length (column j a) = length a.
Proof.
  unfold column. induction 1 as [| row a Hrow _ IH]; [done |]. simpl.
  destruct (lookup_lt_is_Some_2 row j Hrow) as [x Hx]. rewrite Hx. simpl.
  f_equal. exact IH.
Qed.

Lemma transpose_cell (a : array2) n i j :
  a ≠ [] → Forall (λ row : array1, length row = n) a →
  cell (transpose a) i j = cell a j i.
Proof.
  intros Hne Hall. unfold transpose.
  assert (Hw : (shape2 a).2 = n).
  { destruct a as [| row a]; [done |]. by inversion Hall. }
  rewrite Hw. unfold cell at 1.
  destruct (decide (i < n)%nat) as [Hi | Hi].
  - rewrite list_lookup_fmap, lookup_seq_lt by done. simpl.
    rewrite column_lookup; [done |].
    eapply Forall_impl; [exact Hall |]. simpl. intros row ->. done.
  - rewrite list_lookup_fmap, lookup_seq_ge by lia. simpl.
    unfold cell. destruct (a !! j) as [row |] eqn:Hrow; simpl; [| done].
    symmetry. apply lookup_ge_None.
    rewrite Forall_forall in Hall.
    rewrite (Hall row) by (by eapply list_elem_of_lookup_2). lia.
Qed.

Lemma transpose_shape (a : array2) n :
  a ≠ [] → Forall (λ row : array1, length row = n) a →
  length (transpose a) = n
  ∧ Forall (λ row : array1, length row = length a) (transpose a).
Proof.
  intros Hne Hall. unfold transpose.
  assert (Hw : (shape2 a).2 = n).
  { destruct a as [| row a]; [done |]. by inversion Hall. }
  rewrite Hw. split; [by rewrite length_map, length_seq |].
  apply Forall_forall. intros col (j & -> & Hj)%list_elem_of_fmap.
  apply elem_of_seq in Hj. apply column_length.
  eapply Forall_impl; [exact Hall |]. simpl. intros row ->. lia.
Qed.

(** X20: for a species that has no stored matrix, a successful extraction
    run stores exactly the matrix it built, and that matrix has one row
    per occurrence and one column per listed raster file, column [j]
    holding the values extracted from the [j]-th file. *)
Theorem save_coverges_to_numpy_new_species `{Numpy} `{Searchsorted}
    self fs creatable disk coordinates species_name root_raster_files_list
    disk' coverage :
  length (np_searchsorted_keys (xgrid (raster_standards self)) (map snd coordinates))
    = length coordinates →
  disk !! npy_path self species_name = None →
  save_coverges_to_numpy self fs creatable disk (Ok coordinates) species_name
    root_raster_files_list = Ok (disk', coverage) →
  disk' = <[npy_path self species_name := coverage]> disk
  ∧ length coverage = length coordinates
  ∧ Forall (λ row : array1, length row = length root_raster_files_list) coverage
  ∧ ∃ all_env_values_list,
      mapM (layer_values self fs (map snd coordinates) (map fst coordinates)
              (np_searchsorted_keys (xgrid (raster_standards self)) (map snd coordinates))
              (np_searchsorted_keys (ygrid (raster_standards self)) (map fst coordinates)))
           root_raster_files_list = Ok all_env_values_list
      ∧ ∀ i j, cell coverage i j = cell all_env_values_list j i.
Proof.
  intros Hix Hnew. unfold save_coverges_to_numpy. simpl.
  destruct (mapM _ root_raster_files_list) as [layers |] eqn:Hlayers; simpl; [| done].
  destruct (np_stack1 layers) as [stacked |] eqn:Hstack; simpl; [| done].
  apply np_stack1_ok in Hstack as [-> Hne].
  unfold _update_coverages, np_save. rewrite Hnew. simpl.
  destruct (creatable _); simpl; [| done]. intros [= <- <-].
  assert (Hall : Forall (λ row : array1, length row = length coordinates) layers).
  { eapply mapM_Forall; [| exact Hlayers]. simpl.
    intros fp v Hv%layer_values_length. by rewrite Hv. }
  destruct (transpose_shape layers _ Hne Hall) as [Hrows Hcols].
  split_and!; try done.
  - by rewrite (mapM_length _ _ _ Hlayers) in Hcols.
  - exists layers. split; [done |]. intros i j. by eapply transpose_cell.
Qed.

Lemma save_coverges_to_numpy_new_species_witness :
  (<[ "out/sp.npy" := [[Scenario.fl 3; Scenario.fl 42]; [Scenario.fl 3; Scenario.fl 42]] ]>
     (∅ : gmap string array2))
  = <[npy_path (Scenario.collector 10) "sp" :=
        [[Scenario.fl 3; Scenario.fl 42]; [Scenario.fl 3; Scenario.fl 42]]]> ∅
  ∧ length [[Scenario.fl 3; Scenario.fl 42]; [Scenario.fl 3; Scenario.fl 42]]
    = length Scenario2.occurrences
  ∧ Forall (λ row : array1, length row = length ["plain.tif"; "shore.tif"])
      [[Scenario.fl 3; Scenario.fl 42]; [Scenario.fl 3; Scenario.fl 42]]
  ∧ ∃ all_env_values_list,
      mapM (@layer_values Scenario2.example_numpy (Scenario.collector 10)
              Scenario2.disk2
              (map snd Scenario2.occurrences) (map fst Scenario2.occurrences)
              (@np_searchsorted_keys Scenario2.example_searchsorted
                 (xgrid (raster_standards (Scenario.collector 10)))
                 (map snd Scenario2.occurrences))
              (@np_searchsorted_keys Scenario2.example_searchsorted
                 (ygrid (raster_standards (Scenario.collector 10)))
                 (map fst Scenario2.occurrences)))
           ["plain.tif"; "shore.tif"] = Ok all_env_values_list
      ∧ ∀ i j, cell [[Scenario.fl 3; Scenario.fl 42]; [Scenario.fl 3; Scenario.fl 42]] i j
               = cell all_env_values_list j i.
Proof.
  apply (@save_coverges_to_numpy_new_species Scenario2.example_numpy
           Scenario2.example_searchsorted (Scenario.collector 10) Scenario2.disk2
           (String.prefix "out/") ∅
           Scenario2.occurrences "sp" ["plain.tif"; "shore.tif"]).
  - reflexivity.
  - vm_compute. reflexivity.
  - vm_compute. reflexivity.
Defined.

(** X21: the run is all or nothing: if one of the listed raster files is
    rejected, or an occurrence falls outside the raster, the call raises
    and nothing is stored, whatever the other files are. *)
Theorem save_coverges_to_numpy_no_partial `{Numpy} `{Searchsorted}
    self fs creatable disk coordinates species_name root_raster_files_list fp e :
  fp ∈ root_raster_files_list →
  layer_values self fs (map snd coordinates) (map fst coordinates)
    (np_searchsorted_keys (xgrid (raster_standards self)) (map snd coordinates))
    (np_searchsorted_keys (ygrid (raster_standards self)) (map fst coordinates))
    fp = Raise e →
  is_ok (save_coverges_to_numpy self fs creatable disk (Ok coordinates) species_name
           root_raster_files_list) = false.
Proof.
  intros Hin Hfail. unfold save_coverges_to_numpy. simpl.
  pose proof (mapM_fails _ _ _ _ Hin Hfail) as Hm.
  by destruct (mapM _ root_raster_files_list).
Qed.

Lemma save_coverges_to_numpy_no_partial_witness :
  is_ok (@save_coverges_to_numpy Scenario2.example_numpy Scenario2.example_searchsorted
           (Scenario.collector 10) Scenario2.disk2 (String.prefix "out/") ∅
           (Ok Scenario2.occurrences) "sp"
           ["plain.tif"; "broken/x.tif"]) = false.
Proof.
  apply (@save_coverges_to_numpy_no_partial Scenario2.example_numpy
           Scenario2.example_searchsorted (Scenario.collector 10) Scenario2.disk2
           (String.prefix "out/") ∅
           Scenario2.occurrences "sp" ["plain.tif"; "broken/x.tif"] "broken/x.tif"
           (ExceptionF "Raster dont have default no data val. That should be "
              (FFloat m9999))).
  - repeat constructor.
  - vm_compute. reflexivity.
Defined.

End ExtractionRun.

(** ** Further properties of the modelling pipeline *)

Section ModellingPipelineMore.
Import RasterStandardsV2 OneClassSVM OneClassSVM_Run.

Lemma mapM_lookup {A B} (f : A → result B) l l' i x :
  mapM f l = Ok l' → l !! i = Some x →
  ∃ y, f x = Ok y ∧ l' !! i = Some y.
Proof.
  revert l' i. induction l as [| a l IH]; intros l' i; simpl; [done |].
  destruct (f a) as [b |] eqn:Hfa; simpl; [| done].
  destruct (mapM f l) as [bs |]; simpl; [| done].
  intros [= <-] Hi. destruct i as [| i]; simpl in *.
  - injection Hi as ->. by exists b.
  - by apply IH.
Qed.

Lemma fsub_self dtype x : isfinite x = true → fsub dtype x x = S754_zero false.
Proof.
  unfold fsub. destruct x as [s | s | | s m e]; try done; simpl.
  - by destruct s.
  - by rewrite Z.sub_diag.
Qed.

Lemma broadcast_row_same op (row v : array1) :
  length row = length v → broadcast_row op row v = Ok (zip_with op row v).
Proof. intros Hlen. unfold broadcast_row. by rewrite Hlen, Nat.eqb_refl. Qed.

(** X22: what the [isnan] assignment is there for: in a column whose
    global standard deviation is zero, an entry equal to the column's
    global mean is normalised to exactly 0. *)
Theorem train_cover_std_zero_deviation dtype raster_data_train global_mean global_std
    M i k row x s :
  train_cover_std dtype raster_data_train global_mean global_std = Ok M →
  raster_data_train !! i = Some row →
  length row = length global_mean →
  length row = length global_std →
  row !! k = Some x →
  global_mean !! k = Some x →
  global_std !! k = Some (S754_zero s) →
  isfinite x = true →
  cell M i k = Some f0.
Proof.
  intros HM Hrow Hlm Hls Hx Hmean Hstd Hfin. revert HM.
  unfold train_cover_std, broadcast2.
  destruct (mapM _ raster_data_train) as [ce |] eqn:Hce; simpl; [| done].
  destruct (mapM _ ce) as [sc |] eqn:Hsc; simpl; [| done].
  intros [= <-].
  destruct (mapM_lookup _ _ _ _ _ Hce Hrow) as (crow & Hcrow & Hci).
  rewrite broadcast_row_same in Hcrow by done. injection Hcrow as <-.
  destruct (mapM_lookup _ _ _ _ _ Hsc Hci) as (srow & Hsrow & Hsi).
  rewrite broadcast_row_same in Hsrow by (by rewrite length_zip_with; lia).
  injection Hsrow as <-.
  unfold cell, nan_to_zero. rewrite list_lookup_fmap, Hsi. simpl.
  rewrite list_lookup_fmap, !lookup_zip_with, Hx, Hmean, Hstd. simpl.
  rewrite fsub_self by done. reflexivity.
Qed.

Lemma train_cover_std_zero_deviation_witness :
  cell [[S754_infinity false; f0]] 0 1 = Some f0.
Proof.
  apply (train_cover_std_zero_deviation binary32 [[Scenario.fl 1; Scenario.fl 3]]
           [f0; Scenario.fl 3] [f0; f0] [[S754_infinity false; f0]] 0%nat 1%nat
           [Scenario.fl 1; Scenario.fl 3] (Scenario.fl 3) false).
  - vm_compute. reflexivity.
  - reflexivity.
  - reflexivity.
  - reflexivity.
  - reflexivity.
  - reflexivity.
  - reflexivity.
  - reflexivity.
Defined.

(** X23: held-out rows are normalised exactly as training rows are: the
    scores of [predict_test_occurences] are the estimator's scores on the
    matrix [fit] would build from the same rows. *)
Theorem predict_test_occurences_same_scaling dtype raster_data_test clf
    global_mean global_std :
  predict_test_occurences dtype raster_data_test clf global_mean global_std
  = (M <- train_cover_std dtype raster_data_test global_mean global_std ;;
     decision_function clf M).
Proof.
  unfold predict_test_occurences, train_cover_std.
  destruct (broadcast2 _ raster_data_test _); simpl; [| done].
  by destruct (broadcast2 _ _ _).
Qed.

Lemma scatter_shape (Z : array2) idx values Z' :
  scatter Z idx values = Ok Z' → shape2 Z' = shape2 Z.
Proof.
  unfold scatter. destruct (_ =? _)%nat.
  - intros [= <-]. apply scatter_fold_shape.
  - destruct values as [| v [| ? ?]]; try done. intros [= <-].
    generalize Z. induction idx as [| rc idx IH]; intros Z0; simpl; [done |].
    rewrite IH. apply shape2_setitem2.
Qed.

Lemma setitem2_rectangular (Z : array2) rc v :
  rectangular Z → rectangular (setitem2 Z rc v).
Proof.
  unfold rectangular. rewrite shape2_setitem2. unfold setitem2.
  destruct (Z !! rc.1) as [row |] eqn:Hrow; [| done].
  intros Hrect. apply Forall_insert; [done |].
  rewrite length_insert. rewrite Forall_forall in Hrect.
  apply Hrect. by eapply list_elem_of_lookup_2.
Qed.

Lemma scatter_rectangular (Z : array2) idx values Z' :
  rectangular Z → scatter Z idx values = Ok Z' → rectangular Z'.
Proof.
  unfold scatter. intros Hrect. destruct (_ =? _)%nat.
  - intros [= <-]. revert Z Hrect.
    induction (zip idx values) as [| p l IH]; intros Z Hrect; simpl; [done |].
    by apply IH, setitem2_rectangular.
  - destruct values as [| v [| ? ?]]; try done. intros [= <-]. revert Z Hrect.
    induction idx as [| rc idx IH]; intros Z Hrect; simpl; [done |].
    by apply IH, setitem2_rectangular.
Qed.

Lemma replicate_rectangular (height width : nat) (x : float) :
  rectangular (replicate height (replicate width x)).
Proof.
  unfold rectangular. apply Forall_forall. intros row Hrow.
  apply elem_of_replicate in Hrow as [-> Hh].
  destruct height; [done |]. simpl. done.
Qed.

Lemma cell_is_Some_rectangular {A B} (a : list (list A)) (b : list (list B)) r c x :
  rectangular a → rectangular b → shape2 a = shape2 b →
  cell a r c = Some x → is_Some (cell b r c).
Proof.
  intros Ha Hb Hshape Hx.
  destruct (cell_in_shape _ _ _ _ Ha Hx) as [Hr Hc].
  rewrite Hshape in Hr, Hc. simpl in Hr.
  unfold cell. destruct (lookup_lt_is_Some_2 b r Hr) as [row Hrow].
  rewrite Hrow. simpl. apply lookup_lt_is_Some_2.
  unfold rectangular in Hb. rewrite Forall_forall in Hb.
  rewrite (Hb row) by (by eapply list_elem_of_lookup_2). done.
Qed.

Lemma mask_assign_zero mask Z v Z' r c m :
  rectangular mask → rectangular Z →
  mask_assign mask Z v = Ok Z' →
  cell mask r c = Some m →
  ∃ z, cell Z r c = Some z ∧ cell Z' r c = Some (if py_eq m f0 then v else z).
Proof.
  intros Hm HZ. unfold mask_assign.
  destruct (bool_decide _) eqn:Hshape; [| done].
  apply bool_decide_eq_true_1 in Hshape. intros [= <-] Hcell.
  destruct (cell_is_Some_rectangular _ _ _ _ _ Hm HZ Hshape Hcell) as [z Hz].
  exists z. split; [done |].
  by apply (cell_zip_with (λ m z : float, if py_eq m f0 then v else z)).
Qed.

Lemma py_eq_zero_r m z : py_eq z f0 = true → py_eq m z = true → py_eq m f0 = true.
Proof.
  destruct z as [s | s | | s mz ez]; [| by destruct s | done | by destruct s].
  intros _. destruct m as [sm | sm | | sm mm em]; try done; by destruct sm.
Qed.

(** X24: whatever the classifier returns, a returned raster holds the
    no-data sentinel at every pixel whose land reference is 0; so when the
    positive mask value is itself 0, every land pixel's score is
    overwritten by the sentinel. *)
Theorem predict_land_zero_mask self dtype stacked clf global_mean global_std Z :
  rectangular (land_reference self) →
  predict_land self dtype stacked clf global_mean global_std = Ok Z →
  (∀ r c m, cell (land_reference self) r c = Some m → py_eq m f0 = true →
            cell Z r c = Some (no_data_val (raster_standards self)))
  ∧ (py_eq (positive_mask_val (raster_standards self)) f0 = true →
     ∀ r c, (r, c) ∈ land_pixels self →
            cell Z r c = Some (no_data_val (raster_standards self))).
Proof.
  intros Hrect. unfold predict_land.
  destruct (scaled_coverages_land _ _ _ _ _) as [X |]; simpl; [| done].
  destruct (decision_function clf X) as [pred |]; simpl; [| done].
  unfold spatial_predictions.
  destruct (np_min pred) as [lowest |]; simpl; [| done].
  destruct (scatter _ _ _) as [Zs |] eqn:Hscatter; simpl; [| done].
  intros Hmask.
  assert (Hzero : ∀ r c m, cell (land_reference self) r c = Some m →
            py_eq m f0 = true →
            cell Z r c = Some (no_data_val (raster_standards self))).
  { intros r c m Hcell Hm.
    destruct (mask_assign_zero _ _ _ _ r c m Hrect
                (scatter_rectangular _ _ _ _ (replicate_rectangular _ _ _) Hscatter)
                Hmask Hcell) as (z & _ & Hz).
    by rewrite Hm in Hz. }
  split; [exact Hzero |].
  intros Hpos r c Hin. apply np_where_spec in Hin as (m & Hcell & Hm).
  apply (Hzero r c m Hcell). by eapply py_eq_zero_r.
Qed.

Lemma predict_land_zero_mask_witness :
  (∀ r c m, cell (land_reference Scenario.svm_model) r c = Some m →
            py_eq m f0 = true →
            cell [[Scenario.fl 2; m9999]; [Scenario.fl 6; Scenario.fl 8]] r c
            = Some (no_data_val (raster_standards Scenario.svm_model)))
  ∧ (py_eq (positive_mask_val (raster_standards Scenario.svm_model)) f0 = true →
     ∀ r c, (r, c) ∈ land_pixels Scenario.svm_model →
            cell [[Scenario.fl 2; m9999]; [Scenario.fl 6; Scenario.fl 8]] r c
            = Some (no_data_val (raster_standards Scenario.svm_model))).
Proof.
  apply (predict_land_zero_mask Scenario.svm_model binary32 Scenario.covariates
           Scenario.first_feature_clf [f0] [Scenario.fl 1]
           [[Scenario.fl 2; m9999]; [Scenario.fl 6; Scenario.fl 8]]).
  - vm_compute. repeat constructor.
  - vm_compute. reflexivity.
Defined.

(** X25: a returned raster has the shape of the land reference, and
    every pixel whose land reference is neither 0 nor the positive mask
    value holds the baseline, 1.0 times the lowest score. *)
Theorem predict_land_baseline self dtype stacked clf global_mean global_std Z :
  rectangular (land_reference self) →
  predict_land self dtype stacked clf global_mean global_std = Ok Z →
  shape2 Z = shape2 (land_reference self)
  ∧ ∃ X global_pred lowest,
      scaled_coverages_land self dtype stacked global_mean global_std = Ok X
      ∧ decision_function clf X = Ok global_pred
      ∧ np_min global_pred = Ok lowest
      ∧ ∀ r c m, cell (land_reference self) r c = Some m →
          py_eq m f0 = false →
          py_eq m (positive_mask_val (raster_standards self)) = false →
          cell Z r c = Some (fmul binary64 f1 lowest).
Proof.
  intros Hrect. unfold predict_land.
  destruct (scaled_coverages_land _ _ _ _ _) as [X |] eqn:HX; simpl; [| done].
  destruct (decision_function clf X) as [pred |] eqn:Hpred; simpl; [| done].
  unfold spatial_predictions.
  destruct (np_min pred) as [lowest |] eqn:Hmin; simpl; [| done].
  destruct (scatter _ _ _) as [Zs |] eqn:Hscatter; simpl; [| done].
  intros Hmask.
  pose proof (scatter_rectangular _ _ _ _ (replicate_rectangular _ _ _) Hscatter) as HZs.
  split.
  - revert Hmask. unfold mask_assign.
    destruct (bool_decide _) eqn:Hshape; [| done].
    apply bool_decide_eq_true_1 in Hshape. intros [= <-].
    destruct (land_reference self) as [| mrow mask]; destruct Zs as [| zrow Zs'];
      try done.
    unfold shape2 in *. simpl in *. injection Hshape as Hh Hw.
    by rewrite !length_zip_with, Hh, Hw, !Nat.min_id.
  - exists X, pred, lowest. split_and!; try done.
    intros r c m Hcell Hzero Hpos.
    destruct (mask_assign_zero _ _ _ _ r c m Hrect HZs Hmask Hcell) as (z & Hz & HZ).
    rewrite Hzero in HZ. rewrite HZ. f_equal.
    assert (Hnot : (r, c) ∉ land_pixels self).
    { intros (m' & Hcell' & Hm')%np_where_spec. congruence. }
    assert (Hz0 : ∃ z0, cell (replicate (stack_shape stacked).1
                                (replicate (stack_shape stacked).2
                                   (fmul binary64 f1 lowest))) r c = Some z0
                        ∧ cell Zs r c = Some z0).
    { revert Hscatter Hz. unfold scatter. destruct (_ =? _)%nat.
      - intros [= <-]. rewrite scatter_fold_other.
        + intros Hz. by exists z.
        + intros ([p w] & Hp & Hin)%list_elem_of_fmap. simpl in Hp. subst p.
          by apply elem_of_zip_l in Hin.
      - destruct pred as [| v [| ? ?]]; try done. intros [= <-].
        assert (Hgen : ∀ idx (Z0 : array2), (r, c) ∉ idx →
                  cell (fold_left (λ Z rc, setitem2 Z rc v) idx Z0) r c = cell Z0 r c).
        { induction idx as [| rc idx IH]; intros Z0 Hni; simpl; [done |].
          apply not_elem_of_cons in Hni as [Hne Hni].
          rewrite IH by done. by apply cell_setitem2_ne. }
        rewrite Hgen by done. intros Hz. by exists z. }
    destruct Hz0 as (z0 & Hrep & Hzs).
    assert (z = z0) as -> by congruence.
    unfold cell in Hrep.
    destruct (replicate _ _ !! r) as [row |] eqn:Hrow; simpl in Hrep; [| done].
    apply lookup_replicate in Hrow as [-> _].
    by apply lookup_replicate in Hrep as [-> _].
Qed.

Lemma predict_land_baseline_witness :
  shape2 [[Scenario.fl 2; m9999]; [Scenario.fl 6; Scenario.fl 8]]
  = shape2 (land_reference Scenario.svm_model)
  ∧ ∃ X global_pred lowest,
      scaled_coverages_land Scenario.svm_model binary32 Scenario.covariates
        [f0] [Scenario.fl 1] = Ok X
      ∧ decision_function Scenario.first_feature_clf X = Ok global_pred
      ∧ np_min global_pred = Ok lowest
      ∧ ∀ r c m, cell (land_reference Scenario.svm_model) r c = Some m →
          py_eq m f0 = false →
          py_eq m (positive_mask_val (raster_standards Scenario.svm_model)) = false →
          cell [[Scenario.fl 2; m9999]; [Scenario.fl 6; Scenario.fl 8]] r c
          = Some (fmul binary64 f1 lowest).
Proof.
  apply (predict_land_baseline Scenario.svm_model binary32 Scenario.covariates
           Scenario.first_feature_clf [f0] [Scenario.fl 1]
           [[Scenario.fl 2; m9999]; [Scenario.fl 6; Scenario.fl 8]]).
  - vm_compute. repeat constructor.
  - vm_compute. reflexivity.
Defined.

(** X26: a land reference without any pixel at the positive mask value
    makes the reconstruction raise, for an estimator that returns one score
    per sample: there is no lowest score to start from. *)
Theorem predict_land_no_land self dtype stacked clf global_mean global_std :
  land_pixels self = [] →
  (∀ X global_pred, decision_function clf X = Ok global_pred →
                    length global_pred = length X) →
  is_ok (predict_land self dtype stacked clf global_mean global_std) = false.
Proof.
  intros Hland Hclf. unfold predict_land.
  destruct (scaled_coverages_land _ _ _ _ _) as [X |] eqn:HX; simpl; [| done].
  destruct (decision_function clf X) as [pred |] eqn:Hpred; simpl; [| done].
  apply scaled_coverages_land_length in HX. rewrite Hland in HX.
  apply Hclf in Hpred. rewrite HX in Hpred. simpl in Hpred.
  apply length_zero_iff_nil in Hpred as ->. done.
Qed.

Lemma predict_land_no_land_witness :
  is_ok (predict_land
           {| nu := nu Scenario.svm_model;
              kernel := kernel Scenario.svm_model;
              gamma := gamma Scenario.svm_model;
              seed := seed Scenario.svm_model;
              raster_standards := raster_standards Scenario.svm_model;
              land_reference := [[f0; f0]; [f0; f0]] |}
           binary32 Scenario.covariates Scenario.first_feature_clf
           [f0] [Scenario.fl 1]) = false.
Proof.
  apply (predict_land_no_land
           {| nu := nu Scenario.svm_model;
              kernel := kernel Scenario.svm_model;
              gamma := gamma Scenario.svm_model;
              seed := seed Scenario.svm_model;
              raster_standards := raster_standards Scenario.svm_model;
              land_reference := [[f0; f0]; [f0; f0]] |}
           binary32 Scenario.covariates Scenario.first_feature_clf
           [f0] [Scenario.fl 1]).
  - vm_compute. reflexivity.
  - intros X global_pred [= <-]. apply length_map.
Defined.

Lemma string_app_cons a (s t : string) : String a s +:+ t = String a (s +:+ t).
Proof. reflexivity. Qed.

Lemma string_app_empty_r (s : string) : s +:+ "" = s.
Proof. induction s as [| a s IH]; [done |]. by rewrite string_app_cons, IH. Qed.

Lemma string_app_snoc (acc : string) ch (s : string) :
  (acc +:+ String ch "") +:+ s = acc +:+ String ch s.
Proof. induction acc as [| a acc IH]; [done |]. by rewrite !string_app_cons, IH. Qed.

Lemma last_component_no_sep acc s :
  contains_char "/" s = false → last_component acc s = acc +:+ s.
Proof.
  revert acc. induction s as [| ch s IH]; intros acc; cbn [last_component contains_char].
  - intros _. by rewrite string_app_empty_r.
  - intros [Hch Hs]%orb_false_iff. rewrite Hch, IH by done.
    apply string_app_snoc.
Qed.

Lemma last_component_after_sep acc dir s :
  last_component acc (dir +:+ "/" +:+ s) = last_component "" s.
Proof.
  revert acc. induction dir as [| ch dir IH]; intros acc; [done |].
  rewrite string_app_cons. cbn [last_component].
  destruct (String.eqb (String ch "") "/"); apply IH.
Qed.

Lemma first_component_stem stem rest :
  contains_char "." stem = false →
  first_component "." (stem +:+ "." +:+ rest) = stem.
Proof.
  induction stem as [| ch stem IH]; [done |]. rewrite string_app_cons.
  cbn [first_component contains_char].
  intros [Hch Hs]%orb_false_iff. rewrite Hch. by rewrite IH.
Qed.

Lemma first_component_no_sep sep s : contains_char sep (first_component sep s) = false.
Proof.
  induction s as [| ch s IH]; cbn [first_component]; [done |].
  destruct (String.eqb (String ch "") sep) eqn:Hch; [done |].
  cbn [contains_char]. by rewrite Hch, IH.
Qed.

Lemma contains_char_app sep (s t : string) :
  contains_char sep (s +:+ t) = contains_char sep s || contains_char sep t.
Proof.
  induction s as [| ch s IH]; [done |]. rewrite string_app_cons.
  cbn [contains_char]. by rewrite IH, orb_assoc.
Qed.

(** X27: the species name of the modelling run is the file name up to its
    first dot: for a path [dir/stem.rest] whose [stem] has neither slash
    nor dot it is [stem], whatever [rest] holds, further dots included
    (so [Genus.species.npy] is run under the name [Genus]); and a species
    name never holds a dot. *)
Theorem species_name_of_path dir stem rest :
  contains_char "/" stem = false →
  contains_char "." stem = false →
  contains_char "/" rest = false →
  species_name_of (dir +:+ "/" +:+ stem +:+ "." +:+ rest) = stem
  ∧ ∀ path, contains_char "." (species_name_of path) = false.
Proof.
  intros Hs1 Hs2 Hr. split; [| intros path; apply first_component_no_sep].
  unfold species_name_of. rewrite last_component_after_sep.
  rewrite last_component_no_sep.
  - by apply first_component_stem.
  - rewrite !contains_char_app, Hs1, Hr. reflexivity.
Qed.

Lemma species_name_of_path_witness :
  species_name_of "data/occurrences/Genus.species.npy" = "Genus"
  ∧ ∀ path, contains_char "." (species_name_of path) = false.
Proof.
  apply (species_name_of_path "data/occurrences" "Genus" "species.npy").
  - reflexivity.
  - reflexivity.
  - reflexivity.
Defined.

End ModellingPipelineMore.
